(** * ScheduleTable: the weekly timetable grid

    A shallow embedding of [src/ScheduleTable.tsx]: the time axis [TIMES],
    the colour function [getColor], the derived [activeTableId], the click
    targets of the grid and the absolute placement of a [DraggableSchedule].

    Conventions of the embedding.
    - A TypeScript [number] that only ever holds an integer (indices, pixel
      counts, millisecond offsets) is a [Z]; where the source can produce
      [NaN] the type is [JS.number].
    - A JavaScript string is a [string] holding its UTF-8 bytes.  The only
      character the code searches for is the colon, which is one byte and
      never part of a longer UTF-8 sequence.
    - [undefined] and [null] are constructors of [JS.value].
    - [constants.ts], [utils.ts] and [types.ts] are not part of the sources
      at hand: [DAY_LABELS], [CellSize], [분] and [parseHnM] are Section
      variables, and [Schedule] has the fields the component reads. *)

From Stdlib Require Import ZArith List String Ascii Bool Lia.
From Stdlib Require Import Numbers.DecimalString.
From Stdlib Require Numbers.DecimalZ.
Import ListNotations.

Open Scope string_scope.
Open Scope list_scope.
Open Scope Z_scope.

(** ** The JavaScript primitives the component uses *)

Module JS.

(** IEEE numbers restricted to the integers, plus [NaN]. *)
Inductive number : Type :=
| Num (z : Z)
| NaN.

Definition add (a b : number) : number :=
  match a, b with
  | Num x, Num y => Num (x + y)
  | _, _ => NaN
  end.

Definition sub (a b : number) : number :=
  match a, b with
  | Num x, Num y => Num (x - y)
  | _, _ => NaN
  end.

Definition mul (a b : number) : number :=
  match a, b with
  | Num x, Num y => Num (x * y)
  | _, _ => NaN
  end.

(** [String(n)] and the conversion inside a template literal. *)
Definition Z_toString (z : Z) : string :=
  NilEmpty.string_of_int (Z.to_int z).

Definition toString (n : number) : string :=
  match n with
  | Num z => Z_toString z
  | NaN => "NaN"
  end.

(** The values that flow out of the memoised helpers. *)
Inductive value : Type :=
| undefined
| null
| Str (s : string).

(** [a === b] on such values. *)
Definition strict_eq (a b : value) : bool :=
  match a, b with
  | undefined, undefined => true
  | null, null => true
  | Str s, Str t => String.eqb s t
  | _, _ => false
  end.

(** The completion of an evaluation: a value, or a thrown exception. *)
Inductive completion (A : Type) : Type :=
| Normal (a : A)
| Throw (e : string).
Arguments Normal {A} a.
Arguments Throw {A} e.

(** [a % b], whose sign follows the dividend. *)
Definition rem (a b : Z) : Z := Z.rem a b.

(** [Array(n).fill(v)] *)
Definition Array_fill {A : Type} (n : nat) (v : A) : list A := repeat v n.

(** [arr.map((v, k) => f(v, k))] *)
Fixpoint mapi_from {A B : Type} (f : A -> Z -> B) (k : Z) (arr : list A)
  : list B :=
  match arr with
  | [] => []
  | v :: rest => f v k :: mapi_from f (k + 1) rest
  end.

Definition mapi {A B : Type} (f : A -> Z -> B) (arr : list A) : list B :=
  mapi_from f 0 arr.

(** [arr[i]] for an array of strings *)
Definition at_ (arr : list string) (i : Z) : value :=
  if i <? 0 then undefined
  else match nth_error arr (Z.to_nat i) with
       | Some s => Str s
       | None => undefined
       end.

(** [arr[0]] for an array of numbers, read in a numeric context:
    [undefined] becomes [NaN] under the subtraction that follows. *)
Definition first_number (arr : list Z) : number :=
  match arr with
  | [] => NaN
  | z :: _ => Num z
  end.

(** [arr.indexOf(x)]: the first index holding [x], or [-1]. *)
Fixpoint indexOf_from (k : Z) (arr : list string) (x : string) : Z :=
  match arr with
  | [] => -1
  | y :: rest => if String.eqb y x then k else indexOf_from (k + 1) rest x
  end.

Definition indexOf (arr : list string) (x : string) : Z :=
  indexOf_from 0 arr x.

(** [new Set(arr)] keeps its members in insertion order; [add] of a
    member already present changes nothing.  [[...set]] lists them. *)
Definition Set_has (s : list string) (x : string) : bool :=
  existsb (String.eqb x) s.

Definition Set_add (s : list string) (x : string) : list string :=
  if Set_has s x then s else s ++ [x].

Definition Set_from (arr : list string) : list string :=
  fold_left Set_add arr [].

(** [s.split(sep)] for a one-character separator. *)
Fixpoint split (sep : ascii) (s : string) : list string :=
  match s with
  | EmptyString => [EmptyString]
  | String c rest =>
      if Ascii.eqb c sep then EmptyString :: split sep rest
      else match split sep rest with
           | piece :: pieces => String c piece :: pieces
           | [] => [String c EmptyString]
           end
  end.

End JS.

(** ** The data model *)

(** [types.ts]: the fields of a schedule entry that the component reads. *)
Record Lecture : Type := mkLecture {
  id : string;
  title : string
}.

Record Schedule : Type := mkSchedule {
  day : string;
  range : list Z;
  room : string;
  lecture : Lecture
}.

(** The argument of [onScheduleTimeClick]. *)
Module TimeInfo.
Record t : Type := mk {
  day : string;
  time : Z
}.
End TimeInfo.

(** [CellSize] of [constants.ts]. *)
Module CellSize.
Record t : Type := mk {
  WIDTH : Z;
  HEIGHT : Z
}.
End CellSize.

(** The identifier of a draggable in the drag-and-drop library:
    [string | number]. *)
Inductive UniqueIdentifier : Type :=
| IdString (s : string)
| IdNumber (z : Z).

Record Active : Type := mkActive {
  active_id : UniqueIdentifier
}.

(** What [useDndContext()] gives: [active] is [null] while nothing is
    dragged. *)
Record DndContext : Type := mkDndContext {
  active : option Active
}.

(** [if (activeId)]: the empty string and zero are falsy. *)
Definition truthy (u : UniqueIdentifier) : bool :=
  match u with
  | IdString s => negb (String.eqb s "")
  | IdNumber z => negb (z =? 0)
  end.

(** [String(activeId)] *)
Definition String_ (u : UniqueIdentifier) : string :=
  match u with
  | IdString s => s
  | IdNumber z => JS.Z_toString z
  end.

(** ** Hooks *)

(** One [useMemo] slot.  The dependency of the colour function is the
    [schedules] array itself, compared by identity ([Object.is]); an array
    is therefore passed around as its identity together with its contents. *)
Record MemoCell (A : Type) : Type := mkMemoCell {
  memo_deps : nat;
  memo_value : A
}.
Arguments mkMemoCell {A} _ _.
Arguments memo_deps {A} _.
Arguments memo_value {A} _.

Definition useMemo {A : Type} (cell : option (MemoCell A))
    (factory : unit -> A) (deps : nat) : MemoCell A :=
  match cell with
  | Some c =>
      if Nat.eqb (memo_deps c) deps then c
      else mkMemoCell deps (factory tt)
  | None => mkMemoCell deps (factory tt)
  end.

(** ** The colour function, lines 52-56 *)

Definition colors : list string :=
  ["#fdd"; "#ffd"; "#dff"; "#ddf"; "#fdf"; "#dfd"].

Definition lectures (schedules : list Schedule) : list string :=
  JS.Set_from (map (fun s => id (lecture s)) schedules).

(** The closure returned by the factory. *)
Definition getColor (schedules : list Schedule) (lectureId : string)
  : JS.value :=
  JS.at_ colors
    (JS.rem (JS.indexOf (lectures schedules) lectureId)
            (Z.of_nat (List.length colors))).

(** [useMemo(() => ..., [schedules])] *)
Definition useGetColor (cell : option (MemoCell (string -> JS.value)))
    (schedules_ref : nat) (schedules : list Schedule)
  : MemoCell (string -> JS.value) :=
  useMemo cell (fun _ => getColor schedules) schedules_ref.

(** ** The active table, lines 64-70

    The memo of this value is keyed on [dndContext.active?.id], the very
    value it is computed from, so it is the plain function of it. *)
Definition activeTableId (dndContext : DndContext) : JS.value :=
  match option_map active_id (active dndContext) with
  | Some activeId =>
      if truthy activeId then JS.at_ (JS.split ":" (String_ activeId)) 0
      else JS.null
  | None => JS.null
  end.

(** [outline={activeTableId === tableId ? "5px dashed" : undefined}] *)
Definition outline (tableId : string) (dndContext : DndContext) : JS.value :=
  if JS.strict_eq (activeTableId dndContext) (JS.Str tableId)
  then JS.Str "5px dashed"
  else JS.undefined.

(** ** The rendered tree *)

(** A click target of the grid.  A handler acts on the state of whoever
    supplied the callback. *)
Record GridItem (St : Type) : Type := mkGridItem {
  key : string;
  bg : string;
  onClick : St -> St
}.
Arguments mkGridItem {St} _ _ _.
Arguments key {St} _.
Arguments bg {St} _.
Arguments onClick {St} _.

(** One [Fragment] per time row: its key and its click targets (the label
    cell in front of them carries no handler). *)
Record TimeRow (St : Type) : Type := mkTimeRow {
  row_key : string;
  cells : list (GridItem St)
}.
Arguments mkTimeRow {St} _ _.
Arguments row_key {St} _.
Arguments cells {St} _.

(** The numbers behind the four lengths of a block, before ["px"] is
    appended. *)
Record Rect : Type := mkRect {
  left : JS.number;
  top : JS.number;
  width : JS.number;
  height : JS.number
}.

(** The [Box] of one schedule block. *)
Record Box : Type := mkBox {
  box_id : string;
  box_left : string;
  box_top : string;
  box_width : string;
  box_height : string;
  box_bg : JS.value;
  box_title : string;
  box_room : string
}.

Record Props (St : Type) : Type := mkProps {
  tableId : string;
  schedules_ref : nat;
  schedules : list Schedule;
  onScheduleTimeClick : option (TimeInfo.t -> St -> St)
}.
Arguments mkProps {St} _ _ _ _.
Arguments tableId {St} _.
Arguments schedules_ref {St} _.
Arguments schedules {St} _.
Arguments onScheduleTimeClick {St} _.

Record Rendered (St : Type) : Type := mkRendered {
  rendered_outline : JS.value;
  rendered_rows : list (TimeRow St);
  rendered_blocks : list (JS.completion Box)
}.
Arguments mkRendered {St} _ _ _.
Arguments rendered_outline {St} _.
Arguments rendered_rows {St} _.
Arguments rendered_blocks {St} _.

Section ScheduleTable.

(** [constants.ts] and [utils.ts]. *)
Variable DAY_LABELS : list string.
Variable CellSize : CellSize.t.
Variable 분 : Z.
Variable parseHnM : Z -> string.

(** *** The time axis, lines 29-39 *)
Definition TIMES : list string :=
  map (fun v => parseHnM v ++ "~" ++ parseHnM (v + 30 * 분))%string
      (JS.mapi (fun v k => v + k * 30 * 분) (JS.Array_fill 18 0))
  ++
  map (fun v => parseHnM v ++ "~" ++ parseHnM (v + 50 * 분))%string
      (JS.mapi (fun v k => v + k * 55 * 분)
               (JS.Array_fill 6 (18 * 30 * 분))).

(** *** A schedule block, lines 150-198 *)
Definition leftIndex (data : Schedule) : Z :=
  JS.indexOf DAY_LABELS (day data).

Definition topIndex (data : Schedule) : JS.number :=
  JS.sub (JS.first_number (range data)) (JS.Num 1).

Definition size (data : Schedule) : Z :=
  Z.of_nat (List.length (range data)).

Definition rect (data : Schedule) : Rect :=
  {| left := JS.Num (120 + CellSize.WIDTH CellSize * leftIndex data + 1);
     top := JS.add (JS.Num 40)
              (JS.add (JS.mul (topIndex data)
                              (JS.Num (CellSize.HEIGHT CellSize)))
                      (JS.Num 1));
     width := JS.Num (CellSize.WIDTH CellSize - 1);
     height := JS.Num (CellSize.HEIGHT CellSize * size data - 1) |}.

Definition px (n : JS.number) : string := (JS.toString n ++ "px")%string.

(** No step of the component body can throw on a [Schedule]: the
    completion is always normal. *)
Definition DraggableSchedule (id_ : string) (data : Schedule)
    (bg_ : JS.value) : JS.completion Box :=
  let r := rect data in
  JS.Normal {| box_id := id_;
               box_left := px (left r);
               box_top := px (top r);
               box_width := px (width r);
               box_height := px (height r);
               box_bg := bg_;
               box_title := title (lecture data);
               box_room := room data |}.

(** *** The table, lines 45-144 *)
Section Table.

Variable St : Type.

(** [onScheduleTimeClick?.(timeInfo)] *)
Definition optional_call (cb : option (TimeInfo.t -> St -> St))
    (timeInfo : TimeInfo.t) : St -> St :=
  match cb with
  | Some f => f timeInfo
  | None => fun st => st
  end.

Definition grid_cell (props : Props St) (timeIndex : Z) (day_ : string)
  : GridItem St :=
  {| key := (day_ ++ "-" ++ JS.Z_toString (timeIndex + 2))%string;
     bg := if timeIndex >? 17 then "gray.100" else "white";
     onClick := optional_call (onScheduleTimeClick props)
                  (TimeInfo.mk day_ (timeIndex + 1)) |}.

Definition grid_rows (props : Props St) : list (TimeRow St) :=
  JS.mapi (fun (time_ : string) timeIndex =>
             {| row_key :=
                  ("시간-" ++ JS.Z_toString (timeIndex + 1))%string;
                cells := map (grid_cell props timeIndex) DAY_LABELS |})
          TIMES.

Definition blocks (props : Props St) (color : string -> JS.value)
  : list (JS.completion Box) :=
  JS.mapi (fun schedule index =>
             DraggableSchedule
               (tableId props ++ ":" ++ JS.Z_toString index)%string
               schedule
               (color (id (lecture schedule))))
          (schedules props).

(** One render pass: the memo slot of the colour function goes in and
    comes out. *)
Definition ScheduleTable (hook : option (MemoCell (string -> JS.value)))
    (props : Props St) (dndContext : DndContext)
  : Rendered St * MemoCell (string -> JS.value) :=
  let cell := useGetColor hook (schedules_ref props) (schedules props) in
  ({| rendered_outline := outline (tableId props) dndContext;
      rendered_rows := grid_rows props;
      rendered_blocks := blocks props (memo_value cell) |},
   cell).

(** A click on the target in row [timeIndex], column [dayIndex]. *)
Definition click (tree : Rendered St) (timeIndex dayIndex : nat)
  : option (St -> St) :=
  match nth_error (rendered_rows tree) timeIndex with
  | Some row => option_map onClick (nth_error (cells row) dayIndex)
  | None => None
  end.

End Table.

End ScheduleTable.

(** ** Notions of the specification *)

(** [x] stands at 0-based position [i] of [l], and nowhere before. *)
Definition first_position (x : string) (l : list string) (i : nat) : Prop :=
  nth_error l i = Some x /\
  forall j, (j < i)%nat -> nth_error l j <> Some x.

(** The unique members of a list in first-seen order, as the specification
    words it: the head, then the first-seen order of what remains once the
    head is struck out. *)
Fixpoint unique_first_seen (l : list string) : list string :=
  match l with
  | [] => []
  | x :: rest =>
      x :: filter (fun y => negb (String.eqb y x)) (unique_first_seen rest)
  end.

(** A slot range is contiguous when each index is the successor of the one
    before it. *)
Fixpoint contiguous (r : list Z) : bool :=
  match r with
  | [] => true
  | a :: rest =>
      match rest with
      | [] => true
      | b :: _ => (b =? a + 1) && contiguous rest
      end
  end.

(** Whether the character [c] occurs in [s]. *)
Fixpoint contains (c : ascii) (s : string) : bool :=
  match s with
  | EmptyString => false
  | String a rest => Ascii.eqb a c || contains c rest
  end.

(** A contract violation at the coordinate mapper. *)
Definition contract_violation (DAY_LABELS : list string) (data : Schedule)
  : Prop :=
  ~ In (day data) DAY_LABELS \/
  range data = [] \/
  contiguous (range data) = false.

(** An evaluation fails loudly when it completes by throwing. *)
Definition fails_loudly {A : Type} (c : JS.completion A) : Prop :=
  exists e, c = JS.Throw e.

(** The memo slot agrees with the array it is keyed on: the array with this
    identity has not been changed in place since the slot was filled. *)
Definition coherent (cell : option (MemoCell (string -> JS.value)))
    (schedules_ref : nat) (schedules : list Schedule) : Prop :=
  match cell with
  | Some c =>
      memo_deps c = schedules_ref ->
      forall x, memo_value c x = getColor schedules x
  | None => True
  end.

(** A recording callback: the collaborator's state is the list of the
    arguments it was called with, oldest first. *)
Definition spy (timeInfo : TimeInfo.t) (calls : list TimeInfo.t)
  : list TimeInfo.t :=
  calls ++ [timeInfo].

(** ** The rest of the table

    What the table renders besides the click targets and the blocks: the
    grid template, the children of the grid in document order, the keys of
    the blocks and their delete buttons. *)

(** A child of the [Grid], in the order the component emits them. *)
Inductive GridChild (St : Type) : Type :=
| Corner
| DayHeader (day_ : string)
| TimeLabel (bg_ : string) (text : string)
| Target (item : GridItem St).
Arguments Corner {St}.
Arguments DayHeader {St} _.
Arguments TimeLabel {St} _ _.
Arguments Target {St} _.

Section Layout.

Variable DAY_LABELS : list string.
Variable CellSize : CellSize.t.
Variable 분 : Z.
Variable parseHnM : Z -> string.
Variable fill2 : Z -> string.
Variable St : Type.

(** The track sizes, in pixels, that
    [templateColumns = "120px repeat(DAY_LABELS.length, WIDTHpx)"] and
    [templateRows = "40px repeat(TIMES.length, HEIGHTpx)"] declare. *)
Definition column_tracks : list Z :=
  120 :: repeat (CellSize.WIDTH CellSize) (List.length DAY_LABELS).

Definition row_tracks : list Z :=
  40 :: repeat (CellSize.HEIGHT CellSize)
          (List.length (TIMES 분 parseHnM)).

(** Where track number [k] (from 0) begins: the sizes of the tracks before
    it, added up. *)
Definition track_start (tracks : list Z) (k : nat) : Z :=
  fold_right Z.add 0 (firstn k tracks).

(** The children of one [Fragment]: the label of the row, then one click
    target per day. *)
Definition time_fragment (props : Props St) (time_ : string)
    (timeIndex : Z) : list (GridChild St) :=
  TimeLabel (if timeIndex >? 17 then "gray.200" else "gray.100")
            (fill2 (timeIndex + 1) ++ " (" ++ time_ ++ ")")%string
  :: map (fun day_ => Target (grid_cell St props timeIndex day_)) DAY_LABELS.

(** All children of the [Grid], fragments flattened. *)
Definition grid_children (props : Props St) : list (GridChild St) :=
  Corner
  :: map DayHeader DAY_LABELS
  ++ List.concat (JS.mapi (time_fragment props) (TIMES 분 parseHnM)).

(** [handleDeleteSchedule], lines 76-78; [removeSchedule] comes from the
    schedule context. *)
Definition handleDeleteSchedule (removeSchedule : string -> string -> St -> St)
    (props : Props St) (schedule : Schedule) : St -> St :=
  removeSchedule (tableId props) (id (lecture schedule)).

(** [onDeleteButtonClick] of each block, in the order of the blocks. *)
Definition delete_buttons (removeSchedule : string -> string -> St -> St)
    (props : Props St) : list (St -> St) :=
  map (fun schedule => handleDeleteSchedule removeSchedule props schedule)
      (schedules props).

End Layout.

(** [key] of each block: ["{lecture.id}-{index}"]. *)
Definition block_keys (schedules : list Schedule) : list string :=
  JS.mapi (fun schedule index =>
             (id (lecture schedule) ++ "-" ++ JS.Z_toString index)%string)
          schedules.

(** A recording [removeSchedule]: the pairs it was called with, oldest
    first. *)
Definition remove_spy (tableId_ lectureId : string)
    (calls : list (string * string)) : list (string * string) :=
  calls ++ [(tableId_, lectureId)].

(** ** Example values

    Values for the constants of [constants.ts] and [utils.ts], used to run
    the definitions on concrete inputs. *)
Module Sample.

Definition DAY_LABELS : list string := ["월"; "화"; "수"; "목"; "금"].

Definition CellSize : CellSize.t := CellSize.mk 80 30.

Definition 분 : Z := 60 * 1000.

Definition fill2 (n : Z) : string :=
  if n <? 10 then ("0" ++ JS.Z_toString n)%string else JS.Z_toString n.

(** Hours and minutes of the day, counted from nine o'clock. *)
Definition parseHnM (current : Z) : string :=
  let minutes := current / 분 + 9 * 60 in
  (fill2 ((minutes / 60) mod 24) ++ ":" ++ fill2 (minutes mod 60))%string.

Definition lecture_of (n : string) : Lecture := mkLecture n ("강의 " ++ n)%string.

Definition schedule_of (d : string) (r : list Z) (n : string) : Schedule :=
  mkSchedule d r "101" (lecture_of n).

Definition seven : list Schedule :=
  map (schedule_of "월" [1; 2])
      ["L0"; "L1"; "L0"; "L2"; "L3"; "L4"; "L1"; "L5"; "L6"].

Definition props (s : list Schedule) : Props (list TimeInfo.t) :=
  mkProps "tableA" 0%nat s (Some spy).

Definition idle : DndContext := mkDndContext None.

Definition dragging (s : string) : DndContext :=
  mkDndContext (Some (mkActive (IdString s))).

End Sample.

(** ** Running the definitions *)

Example TIMES_sample :
  TIMES Sample.분 Sample.parseHnM =
  ["09:00~09:30"; "09:30~10:00"; "10:00~10:30"; "10:30~11:00";
   "11:00~11:30"; "11:30~12:00"; "12:00~12:30"; "12:30~13:00";
   "13:00~13:30"; "13:30~14:00"; "14:00~14:30"; "14:30~15:00";
   "15:00~15:30"; "15:30~16:00"; "16:00~16:30"; "16:30~17:00";
   "17:00~17:30"; "17:30~18:00";
   "18:00~18:50"; "18:55~19:45"; "19:50~20:40"; "20:45~21:35";
   "21:40~22:30"; "22:35~23:25"].
Proof. vm_compute. reflexivity. Qed.

Example lectures_sample :
  lectures Sample.seven = ["L0"; "L1"; "L2"; "L3"; "L4"; "L5"; "L6"].
Proof. reflexivity. Qed.

Example getColor_sample :
  map (getColor Sample.seven) ["L0"; "L1"; "L5"; "L6"; "L7"] =
  [JS.Str "#fdd"; JS.Str "#ffd"; JS.Str "#dfd"; JS.Str "#fdd"; JS.undefined].
Proof. reflexivity. Qed.

Example split_sample :
  JS.split ":" "tableA:2" = ["tableA"; "2"] /\
  JS.split ":" "a:b:0" = ["a"; "b"; "0"] /\
  JS.split ":" "plain" = ["plain"] /\
  JS.split ":" "" = [""].
Proof. repeat split. Qed.

Example rect_sample :
  rect Sample.DAY_LABELS Sample.CellSize (Sample.schedule_of "화" [3; 4; 5] "L0")
  = mkRect (JS.Num 201) (JS.Num 101) (JS.Num 79) (JS.Num 89).
Proof. reflexivity. Qed.

Example box_sample :
  DraggableSchedule Sample.DAY_LABELS Sample.CellSize "tableA:0"
    (Sample.schedule_of "화" [3; 4; 5] "L0") (JS.Str "#fdd")
  = JS.Normal (mkBox "tableA:0" "201px" "101px" "79px" "89px"
                     (JS.Str "#fdd") "강의 L0" "101").
Proof. vm_compute. reflexivity. Qed.

(** ** Facts about the primitives *)

Section IndexOf.

Lemma indexOf_from_absent (arr : list string) (x : string) :
  ~ In x arr -> forall k, JS.indexOf_from k arr x = -1.
Proof.
  induction arr as [|y rest IH]; intros Hx k; simpl; [reflexivity|].
  destruct (String.eqb_spec y x) as [->|_].
  - exfalso. apply Hx. now left.
  - apply IH. intros H. apply Hx. now right.
Qed.

Lemma indexOf_from_first (arr : list string) (x : string) :
  forall i k, first_position x arr i ->
              JS.indexOf_from k arr x = k + Z.of_nat i.
Proof.
  induction arr as [|y rest IH]; intros i k [Hnth Hbefore].
  - destruct i; discriminate.
  - simpl. destruct i as [|i].
    + injection Hnth as ->. rewrite String.eqb_refl. lia.
    + destruct (String.eqb_spec y x) as [->|_].
      * exfalso. apply (Hbefore 0%nat); [lia | reflexivity].
      * rewrite (IH i (k + 1)); [lia|].
        split; [exact Hnth|].
        intros j Hj. apply (Hbefore (S j)). lia.
Qed.

Lemma In_first_position (arr : list string) (x : string) :
  In x arr -> exists i, first_position x arr i.
Proof.
  induction arr as [|y rest IH]; intros Hin; [contradiction|].
  destruct (String.eqb_spec y x) as [->|Hne].
  - exists 0%nat. split; [reflexivity | intros j Hj; lia].
  - destruct IH as [i [Hnth Hbefore]].
    { destruct Hin as [->|H]; [contradiction | exact H]. }
    exists (S i). split; [exact Hnth|].
    intros [|j] Hj; simpl.
    + intros [= E]. contradiction.
    + apply Hbefore. lia.
Qed.

Lemma first_position_inj (arr : list string) (x y : string) (i : nat) :
  first_position x arr i -> first_position y arr i -> x = y.
Proof.
  intros [Hx _] [Hy _]. rewrite Hx in Hy. now injection Hy.
Qed.

Lemma first_position_bound (arr : list string) (x : string) (i : nat) :
  first_position x arr i -> (i < List.length arr)%nat.
Proof.
  intros [Hx _]. apply nth_error_Some. rewrite Hx. discriminate.
Qed.

Lemma indexOf_first (arr : list string) (x : string) (i : nat) :
  first_position x arr i -> JS.indexOf arr x = Z.of_nat i.
Proof.
  intros H. unfold JS.indexOf. rewrite (indexOf_from_first arr x i 0 H). lia.
Qed.

Lemma indexOf_absent (arr : list string) (x : string) :
  ~ In x arr -> JS.indexOf arr x = -1.
Proof. intros H. apply indexOf_from_absent, H. Qed.

End IndexOf.

Section Mapi.

Context {A B : Type}.
Variable f : A -> Z -> B.

Lemma mapi_from_length (arr : list A) :
  forall k, List.length (JS.mapi_from f k arr) = List.length arr.
Proof.
  induction arr as [|v rest IH]; intros k; simpl; [reflexivity|].
  now rewrite IH.
Qed.

Lemma mapi_from_nth (arr : list A) :
  forall k i,
    nth_error (JS.mapi_from f k arr) i =
    option_map (fun v => f v (k + Z.of_nat i)) (nth_error arr i).
Proof.
  induction arr as [|v rest IH]; intros k [|i]; simpl; try reflexivity.
  - now rewrite Z.add_0_r.
  - rewrite IH. destruct (nth_error rest i); simpl; [|reflexivity].
    do 2 f_equal. lia.
Qed.

Lemma mapi_length (arr : list A) :
  List.length (JS.mapi f arr) = List.length arr.
Proof. apply mapi_from_length. Qed.

Lemma mapi_nth (arr : list A) (i : nat) :
  nth_error (JS.mapi f arr) i =
  option_map (fun v => f v (Z.of_nat i)) (nth_error arr i).
Proof. unfold JS.mapi. now rewrite mapi_from_nth. Qed.

End Mapi.

Lemma Array_fill_nth {A : Type} (n i : nat) (v : A) :
  (i < n)%nat -> nth_error (JS.Array_fill n v) i = Some v.
Proof.
  unfold JS.Array_fill. revert i.
  induction n as [|n IH]; intros i Hi; [lia|].
  destruct i as [|i]; simpl; [reflexivity|]. apply IH. lia.
Qed.

(** ** [new Set] and first-seen order *)

Section FirstSeen.

Lemma Set_has_In (s : list string) (x : string) :
  JS.Set_has s x = true <-> In x s.
Proof.
  unfold JS.Set_has. rewrite existsb_exists. split.
  - intros [y [Hy E]]. apply String.eqb_eq in E. now subst.
  - intros H. exists x. split; [exact H | apply String.eqb_refl].
Qed.

Lemma filter_agree {A : Type} (p q : A -> bool) (l : list A) :
  (forall y, In y l -> p y = q y) -> filter p l = filter q l.
Proof.
  induction l as [|a l IH]; intros H; simpl; [reflexivity|].
  rewrite (H a (or_introl eq_refl)), IH; [reflexivity|].
  intros y Hy. apply H. now right.
Qed.

Lemma filter_twice {A : Type} (p q : A -> bool) (l : list A) :
  filter p (filter q l) = filter (fun y => q y && p y) l.
Proof.
  induction l as [|a l IH]; simpl; [reflexivity|].
  destruct (q a); simpl; [|exact IH].
  destruct (p a); now rewrite IH.
Qed.

(** The set built from [arr] on top of the members [acc] already there. *)
Lemma fold_Set_add (arr : list string) :
  forall acc,
    fold_left JS.Set_add arr acc =
    acc ++ filter (fun y => negb (JS.Set_has acc y)) (unique_first_seen arr).
Proof.
  induction arr as [|x rest IH]; intros acc; simpl.
  - now rewrite app_nil_r.
  - rewrite IH. unfold JS.Set_add at 1 2.
    destruct (JS.Set_has acc x) eqn:Hx; simpl.
    + f_equal. rewrite filter_twice. apply filter_agree.
      intros y _. destruct (String.eqb_spec y x) as [->|_]; simpl.
      * now rewrite Hx.
      * reflexivity.
    + rewrite <- app_assoc. simpl. do 2 f_equal.
      rewrite filter_twice. apply filter_agree.
      intros y _. unfold JS.Set_has. rewrite existsb_app. simpl.
      rewrite orb_false_r, negb_orb, andb_comm. reflexivity.
Qed.

(** [[...new Set(arr)]] is the first-seen order of [arr]. *)
Lemma Set_from_first_seen (arr : list string) :
  JS.Set_from arr = unique_first_seen arr.
Proof.
  unfold JS.Set_from. rewrite fold_Set_add. simpl.
  induction (unique_first_seen arr) as [|y l IH]; simpl; [reflexivity|].
  now rewrite IH.
Qed.

Lemma unique_first_seen_In (arr : list string) (x : string) :
  In x (unique_first_seen arr) <-> In x arr.
Proof.
  induction arr as [|a rest IH]; simpl; [tauto|].
  rewrite filter_In, IH, negb_true_iff, String.eqb_neq.
  destruct (String.eqb_spec a x) as [->|Hne]; [tauto|].
  split; [tauto|]. intros [E|H]; [contradiction|].
  right. split; [exact H|]. intros E. apply Hne. now symmetry.
Qed.

Lemma unique_first_seen_NoDup (arr : list string) :
  NoDup (unique_first_seen arr).
Proof.
  induction arr as [|a rest IH]; simpl; constructor.
  - rewrite filter_In, negb_true_iff, String.eqb_neq. tauto.
  - apply NoDup_filter, IH.
Qed.

Lemma lectures_first_seen (schedules : list Schedule) :
  lectures schedules =
  unique_first_seen (map (fun s => id (lecture s)) schedules).
Proof. apply Set_from_first_seen. Qed.

End FirstSeen.

(** ** Indexing the palette *)

Lemma at_nat (arr : list string) (n : nat) :
  JS.at_ arr (Z.of_nat n) =
  match nth_error arr n with
  | Some s => JS.Str s
  | None => JS.undefined
  end.
Proof.
  unfold JS.at_. destruct (Z.ltb_spec (Z.of_nat n) 0) as [H|_]; [lia|].
  now rewrite Nat2Z.id.
Qed.

Lemma rem_nat (n m : nat) :
  m <> 0%nat -> JS.rem (Z.of_nat n) (Z.of_nat m) = Z.of_nat (n mod m).
Proof.
  intros Hm. unfold JS.rem.
  rewrite Z.rem_mod_nonneg by lia. now rewrite Nat2Z.inj_mod.
Qed.

(** ** The coordinate mapper *)

Lemma contiguous_sample : contiguous [3; 4; 5] = true.
Proof. reflexivity. Qed.

Lemma Sample_day_absent : ~ In "일" Sample.DAY_LABELS.
Proof.
  unfold Sample.DAY_LABELS. simpl.
  intros H. repeat (destruct H as [H|H]; [discriminate H|]). exact H.
Qed.

(** C1. For a day label standing at 0-based position [dayIndex] of the day
    ordering and a non-empty contiguous range [first :: rest], the block is
    placed by the affine transform
    left = 120 + dayIndex * cellWidth + 1,
    top = 40 + (first - 1) * cellHeight + 1,
    width = cellWidth - 1, height = cellHeight * length - 1,
    and the rendered box carries exactly these four lengths in pixels. *)
Theorem position_affine (DAY_LABELS : list string) (CellSize : CellSize.t)
    (data : Schedule) (dayIndex : nat) (first : Z) (rest : list Z) :
  first_position (day data) DAY_LABELS dayIndex ->
  range data = first :: rest ->
  contiguous (range data) = true ->
  let W := CellSize.WIDTH CellSize in
  let H := CellSize.HEIGHT CellSize in
  let r := mkRect (JS.Num (120 + Z.of_nat dayIndex * W + 1))
                  (JS.Num (40 + (first - 1) * H + 1))
                  (JS.Num (W - 1))
                  (JS.Num (H * Z.of_nat (List.length (range data)) - 1)) in
  rect DAY_LABELS CellSize data = r /\
  forall id_ bg_,
    DraggableSchedule DAY_LABELS CellSize id_ data bg_ =
    JS.Normal (mkBox id_ (px (left r)) (px (top r)) (px (width r))
                     (px (height r)) bg_ (title (lecture data)) (room data)).
Proof.
  intros Hday Hrange _ W H r.
  assert (E : rect DAY_LABELS CellSize data = r).
  { unfold rect, r, leftIndex, topIndex, size.
    rewrite (indexOf_first _ _ _ Hday), Hrange.
    cbv [JS.first_number JS.sub JS.mul JS.add]. fold W H.
    f_equal; f_equal; lia. }
  split; [exact E|].
  intros id_ bg_. unfold DraggableSchedule. now rewrite E.
Qed.

Lemma position_affine_witness :
  rect Sample.DAY_LABELS Sample.CellSize
       (Sample.schedule_of "화" [3; 4; 5] "L0")
  = mkRect (JS.Num (120 + 1 * 80 + 1)) (JS.Num (40 + 2 * 30 + 1))
           (JS.Num 79) (JS.Num 89).
Proof.
  refine (proj1 (position_affine Sample.DAY_LABELS Sample.CellSize
                   (Sample.schedule_of "화" [3; 4; 5] "L0")
                   1%nat 3 [4; 5] _ _ _)).
  - split; [reflexivity|].
    intros [|j] Hj; [discriminate | lia].
  - reflexivity.
  - reflexivity.
Defined.

(** C9. For a fixed range and a positive cell width, two distinct valid day
    labels give distinct [left] values, and the horizontal extents from
    [left] to [left + width] of the two blocks are disjoint. *)
Theorem position_injective_in_day (DAY_LABELS : list string)
    (CellSize : CellSize.t) (data1 data2 : Schedule) :
  0 < CellSize.WIDTH CellSize ->
  In (day data1) DAY_LABELS ->
  In (day data2) DAY_LABELS ->
  day data1 <> day data2 ->
  range data1 = range data2 ->
  exists l1 l2 w,
    left (rect DAY_LABELS CellSize data1) = JS.Num l1 /\
    left (rect DAY_LABELS CellSize data2) = JS.Num l2 /\
    width (rect DAY_LABELS CellSize data1) = JS.Num w /\
    width (rect DAY_LABELS CellSize data2) = JS.Num w /\
    l1 <> l2 /\
    (l1 + w < l2 \/ l2 + w < l1).
Proof.
  intros HW H1 H2 Hne _.
  destruct (In_first_position _ _ H1) as [i1 P1].
  destruct (In_first_position _ _ H2) as [i2 P2].
  assert (Hi : i1 <> i2).
  { intros ->. apply Hne. exact (first_position_inj _ _ _ _ P1 P2). }
  unfold rect, leftIndex. cbn [left width].
  rewrite (indexOf_first _ _ _ P1), (indexOf_first _ _ _ P2).
  do 3 eexists. repeat split; try reflexivity.
  - nia.
  - nia.
Qed.

Lemma position_injective_in_day_witness :
  exists l1 l2 w,
    left (rect Sample.DAY_LABELS Sample.CellSize
            (Sample.schedule_of "월" [3; 4; 5] "L0")) = JS.Num l1 /\
    left (rect Sample.DAY_LABELS Sample.CellSize
            (Sample.schedule_of "금" [3; 4; 5] "L0")) = JS.Num l2 /\
    width (rect Sample.DAY_LABELS Sample.CellSize
            (Sample.schedule_of "월" [3; 4; 5] "L0")) = JS.Num w /\
    width (rect Sample.DAY_LABELS Sample.CellSize
            (Sample.schedule_of "금" [3; 4; 5] "L0")) = JS.Num w /\
    l1 <> l2 /\
    (l1 + w < l2 \/ l2 + w < l1).
Proof.
  apply (position_injective_in_day Sample.DAY_LABELS Sample.CellSize
           (Sample.schedule_of "월" [3; 4; 5] "L0")
           (Sample.schedule_of "금" [3; 4; 5] "L0")).
  - reflexivity.
  - simpl. tauto.
  - simpl. tauto.
  - discriminate.
  - reflexivity.
Defined.

(** *** Contract violations *)

(** The component body has no check of its input: whatever the schedule,
    the completion is normal. *)
Lemma DraggableSchedule_normal (DAY_LABELS : list string)
    (CellSize : CellSize.t) (id_ : string) (data : Schedule)
    (bg_ : JS.value) :
  ~ fails_loudly (DraggableSchedule DAY_LABELS CellSize id_ data bg_).
Proof. intros [e He]. discriminate He. Qed.

(** C4, as stated, fails: a schedule on a day outside the day set and a
    schedule with an empty range are both contract violations, and both are
    rendered as boxes instead of throwing. *)
Lemma contract_violation_not_loud :
  let unknown_day := Sample.schedule_of "일" [1; 2] "L0" in
  let empty_range := Sample.schedule_of "월" [] "L0" in
  (contract_violation Sample.DAY_LABELS unknown_day /\
   DraggableSchedule Sample.DAY_LABELS Sample.CellSize "tableA:0"
     unknown_day (JS.Str "#fdd")
   = JS.Normal (mkBox "tableA:0" "41px" "41px" "79px" "59px"
                      (JS.Str "#fdd") "강의 L0" "101")) /\
  (contract_violation Sample.DAY_LABELS empty_range /\
   DraggableSchedule Sample.DAY_LABELS Sample.CellSize "tableA:0"
     empty_range (JS.Str "#fdd")
   = JS.Normal (mkBox "tableA:0" "121px" "NaNpx" "79px" "-1px"
                      (JS.Str "#fdd") "강의 L0" "101")) /\
  ~ (forall data,
        contract_violation Sample.DAY_LABELS data ->
        fails_loudly
          (DraggableSchedule Sample.DAY_LABELS Sample.CellSize "tableA:0"
             data (JS.Str "#fdd"))).
Proof.
  intros unknown_day empty_range. split; [|split].
  - split; [left; exact Sample_day_absent | vm_compute; reflexivity].
  - split; [right; left; reflexivity | vm_compute; reflexivity].
  - intros H. apply (DraggableSchedule_normal Sample.DAY_LABELS
                       Sample.CellSize "tableA:0" empty_range (JS.Str "#fdd")).
    apply H. right. left. reflexivity.
Qed.

(** C4, amended.  A contract violation is not detected: the block is
    rendered all the same.  A day outside the day set is placed with
    [leftIndex = -1], one column to the left of the first day; an empty
    range gives [top = NaN] and [height = -1]. *)
Theorem contract_violation_renders (DAY_LABELS : list string)
    (CellSize : CellSize.t) (id_ : string) (data : Schedule)
    (bg_ : JS.value) :
  contract_violation DAY_LABELS data ->
  (exists box,
      DraggableSchedule DAY_LABELS CellSize id_ data bg_ = JS.Normal box) /\
  (~ In (day data) DAY_LABELS ->
   left (rect DAY_LABELS CellSize data)
   = JS.Num (120 - CellSize.WIDTH CellSize + 1)) /\
  (range data = [] ->
   top (rect DAY_LABELS CellSize data) = JS.NaN /\
   height (rect DAY_LABELS CellSize data) = JS.Num (-1)).
Proof.
  intros _. split; [|split].
  - eexists. reflexivity.
  - intros Hday. unfold rect, leftIndex. cbn [left].
    rewrite (indexOf_absent _ _ Hday). f_equal. lia.
  - intros Hrange. unfold rect, topIndex, size. cbn [top height].
    rewrite Hrange. cbv [JS.first_number JS.sub JS.mul JS.add].
    split; [reflexivity|]. f_equal. simpl List.length. lia.
Qed.

Lemma contract_violation_renders_witness :
  (exists box,
      DraggableSchedule Sample.DAY_LABELS Sample.CellSize "tableA:0"
        (Sample.schedule_of "일" [] "L0") JS.undefined = JS.Normal box) /\
  (~ In "일" Sample.DAY_LABELS ->
   left (rect Sample.DAY_LABELS Sample.CellSize
           (Sample.schedule_of "일" [] "L0")) = JS.Num (120 - 80 + 1)) /\
  (@nil Z = [] ->
   top (rect Sample.DAY_LABELS Sample.CellSize
          (Sample.schedule_of "일" [] "L0")) = JS.NaN /\
   height (rect Sample.DAY_LABELS Sample.CellSize
             (Sample.schedule_of "일" [] "L0")) = JS.Num (-1)).
Proof.
  apply (contract_violation_renders Sample.DAY_LABELS Sample.CellSize
           "tableA:0" (Sample.schedule_of "일" [] "L0") JS.undefined).
  left. exact Sample_day_absent.
Defined.

(** ** The colour assigner *)

Lemma colors_length : List.length colors = 6%nat.
Proof. reflexivity. Qed.

(** A lecture id at position [i] of the collected ids gets the palette
    entry [i mod 6]. *)
Lemma getColor_at (schedules : list Schedule) (x : string) (i : nat) :
  first_position x (lectures schedules) i ->
  exists c,
    nth_error colors (i mod 6) = Some c /\
    getColor schedules x = JS.Str c.
Proof.
  intros Hpos. unfold getColor.
  rewrite (indexOf_first _ _ _ Hpos), colors_length.
  rewrite rem_nat by discriminate. rewrite at_nat.
  destruct (nth_error colors (i mod 6)) as [c|] eqn:E.
  - exists c. split; reflexivity.
  - apply nth_error_None in E. rewrite colors_length in E.
    pose proof (Nat.mod_upper_bound i 6). lia.
Qed.

(** C2. The colour function collects the unique lecture ids in first-seen
    order and gives the id at position [i] of that order the palette entry
    [i mod 6] of a palette of 6 colours; so, when the first-seen order of a
    schedule list is [L0 .. L6], [L0] and [L6] get the same colour. *)
Theorem getColor_cycles (schedules : list Schedule) :
  let ids := unique_first_seen (map (fun s => id (lecture s)) schedules) in
  List.length colors = 6%nat /\
  lectures schedules = ids /\
  (forall x i,
      first_position x ids i ->
      exists c,
        nth_error colors (i mod List.length colors) = Some c /\
        getColor schedules x = JS.Str c) /\
  (forall L0 L1 L2 L3 L4 L5 L6,
      ids = [L0; L1; L2; L3; L4; L5; L6] ->
      getColor schedules L0 = getColor schedules L6).
Proof.
  intros ids.
  assert (Hids : lectures schedules = ids) by apply lectures_first_seen.
  split; [reflexivity|]. split; [exact Hids|]. split.
  - intros x i Hpos. rewrite <- Hids in Hpos. rewrite colors_length.
    exact (getColor_at schedules x i Hpos).
  - intros L0 L1 L2 L3 L4 L5 L6 E.
    pose proof (unique_first_seen_NoDup
                  (map (fun s => id (lecture s)) schedules)) as ND.
    fold ids in ND. rewrite E in ND.
    assert (P0 : first_position L0 (lectures schedules) 0).
    { rewrite Hids, E. split; [reflexivity | intros j Hj; lia]. }
    assert (P6 : first_position L6 (lectures schedules) 6).
    { rewrite Hids, E. split; [reflexivity|].
      intros j Hj Hnth.
      assert (j = 6%nat); [|lia].
      apply (proj1 (NoDup_nth_error _) ND); [simpl; lia | exact Hnth]. }
    destruct (getColor_at _ _ _ P0) as [c0 [N0 ->]].
    destruct (getColor_at _ _ _ P6) as [c6 [N6 ->]].
    change (6 mod 6)%nat with (0 mod 6)%nat in N6.
    rewrite N0 in N6. now injection N6 as ->.
Qed.

Lemma getColor_cycles_witness :
  (exists c,
      nth_error colors (6 mod List.length colors) = Some c /\
      getColor Sample.seven "L6" = JS.Str c) /\
  getColor Sample.seven "L0" = getColor Sample.seven "L6".
Proof.
  pose proof (getColor_cycles Sample.seven) as H. cbv zeta in H.
  destruct H as [_ [_ [Hpos Hcycle]]]. split.
  - apply (Hpos "L6" 6%nat). split; [reflexivity|].
    intros j Hj.
    do 6 (destruct j as [|j]; [discriminate|]). lia.
  - apply (Hcycle "L0" "L1" "L2" "L3" "L4" "L5" "L6"). reflexivity.
Defined.

(** C10. A lecture id that does not occur in the schedule list is looked up
    at index [-1]; [-1 % 6] is [-1]; the palette has no entry there: the
    result is [undefined], neither an exception nor a palette colour. *)
Theorem getColor_unknown (schedules : list Schedule) (x : string) :
  ~ In x (map (fun s => id (lecture s)) schedules) ->
  JS.indexOf (lectures schedules) x = -1 /\
  JS.rem (-1) (Z.of_nat (List.length colors)) = -1 /\
  getColor schedules x = JS.undefined /\
  (forall c, In c colors -> getColor schedules x <> JS.Str c).
Proof.
  intros Hx.
  assert (E : JS.indexOf (lectures schedules) x = -1).
  { apply indexOf_absent. rewrite lectures_first_seen.
    now rewrite unique_first_seen_In. }
  assert (U : getColor schedules x = JS.undefined).
  { unfold getColor. rewrite E. reflexivity. }
  repeat split; [exact E | exact U |].
  intros c _. rewrite U. discriminate.
Qed.

Lemma getColor_unknown_witness :
  getColor Sample.seven "L7" = JS.undefined.
Proof.
  refine (proj1 (proj2 (proj2 (getColor_unknown Sample.seven "L7" _)))).
  simpl. intros H.
  repeat (destruct H as [H|H]; [discriminate H|]). exact H.
Defined.

(** C8. For a fixed schedule list the colour of a lecture id does not
    change from one call to the next: the closure of a render pass and the
    closure of the next pass over the same array return the same token.
    When the memo slot agrees with the array, that token is the one the
    factory computes from the list, and a pass over another array with the
    same contents returns it too. *)
Theorem getColor_stable (cell : option (MemoCell (string -> JS.value)))
    (schedules_ref other_ref : nat) (schedules : list Schedule)
    (lectureId : string) :
  let first := useGetColor cell schedules_ref schedules in
  let again := useGetColor (Some first) schedules_ref schedules in
  let copy := useGetColor (Some first) other_ref schedules in
  memo_value again lectureId = memo_value first lectureId /\
  (coherent cell schedules_ref schedules ->
   memo_value first lectureId = getColor schedules lectureId /\
   memo_value copy lectureId = memo_value first lectureId).
Proof.
  intros first again copy.
  assert (Hdeps : memo_deps first = schedules_ref).
  { unfold first, useGetColor, useMemo. destruct cell as [c|]; simpl.
    - destruct (Nat.eqb_spec (memo_deps c) schedules_ref); auto.
    - reflexivity. }
  split.
  - unfold again, useGetColor, useMemo.
    rewrite Hdeps, Nat.eqb_refl. reflexivity.
  - intros Hcell.
    assert (Hfirst : memo_value first lectureId
                     = getColor schedules lectureId).
    { unfold first, useGetColor, useMemo. destruct cell as [c|]; simpl.
      - destruct (Nat.eqb_spec (memo_deps c) schedules_ref) as [E|_].
        + apply Hcell, E.
        + reflexivity.
      - reflexivity. }
    split; [exact Hfirst|].
    unfold copy, useGetColor, useMemo. rewrite Hdeps.
    destruct (Nat.eqb schedules_ref other_ref); [reflexivity|].
    simpl. now rewrite Hfirst.
Qed.

Lemma getColor_stable_witness :
  let cell := Some (mkMemoCell 0%nat (getColor Sample.seven)) in
  let first := useGetColor cell 0%nat Sample.seven in
  let again := useGetColor (Some first) 0%nat Sample.seven in
  let copy := useGetColor (Some first) 1%nat Sample.seven in
  memo_value again "L3" = memo_value first "L3" /\
  memo_value first "L3" = getColor Sample.seven "L3" /\
  memo_value copy "L3" = memo_value first "L3".
Proof.
  intros cell first again copy.
  destruct (getColor_stable cell 0%nat 1%nat Sample.seven "L3") as [H1 H2].
  split; [exact H1|]. apply H2.
  intros _ x. reflexivity.
Defined.

(** ** The time axis *)

Lemma TIMES_parts (분 : Z) (parseHnM : Z -> string) :
  exists head tail,
    TIMES 분 parseHnM = head ++ tail /\
    List.length head = 18%nat /\
    List.length tail = 6%nat.
Proof.
  do 2 eexists. split; [reflexivity|].
  rewrite !length_map, !mapi_length. split; reflexivity.
Qed.

(** C6. The time axis is a fixed sequence of exactly 24 row labels,
    whatever the length of a minute and the formatting of a time are. *)
Theorem TIMES_length (분 : Z) (parseHnM : Z -> string) :
  List.length (TIMES 분 parseHnM) = 24%nat.
Proof.
  destruct (TIMES_parts 분 parseHnM) as [head [tail [-> [Hh Ht]]]].
  rewrite length_app, Hh, Ht. reflexivity.
Qed.

Lemma TIMES_head (분 : Z) (parseHnM : Z -> string) (k : nat) :
  (k < 18)%nat ->
  nth_error (TIMES 분 parseHnM) k =
  Some (parseHnM (Z.of_nat k * 30 * 분) ++ "~"
        ++ parseHnM (Z.of_nat k * 30 * 분 + 30 * 분))%string.
Proof.
  intros Hk. unfold TIMES.
  rewrite nth_error_app1 by (rewrite length_map, mapi_length; exact Hk).
  rewrite nth_error_map, mapi_nth, Array_fill_nth by exact Hk.
  reflexivity.
Qed.

(** C7. Row [19 + k], for [k] from 0 to 5, starts [18 * 30 + k * 55]
    minutes after the base time and its label spans 50 minutes; row 18 ends
    [18 * 30] minutes after the base time, where row 19 starts. *)
Theorem TIMES_tail (분 : Z) (parseHnM : Z -> string) :
  (forall k,
      (k < 6)%nat ->
      let start := (18 * 30 + Z.of_nat k * 55) * 분 in
      nth_error (TIMES 분 parseHnM) (18 + k) =
      Some (parseHnM start ++ "~" ++ parseHnM (start + 50 * 분))%string) /\
  nth_error (TIMES 분 parseHnM) 17 =
  Some (parseHnM (17 * 30 * 분) ++ "~" ++ parseHnM (18 * 30 * 분))%string.
Proof.
  split.
  - intros k Hk start. unfold TIMES.
    rewrite nth_error_app2 by (rewrite length_map, mapi_length; simpl; lia).
    rewrite length_map, mapi_length.
    replace (18 + k - List.length (JS.Array_fill 18 0%Z))%nat with k
      by (simpl; lia).
    rewrite nth_error_map, mapi_nth, Array_fill_nth by exact Hk.
    cbv beta iota delta [option_map]. unfold start.
    replace (18 * 30 * 분 + Z.of_nat k * 55 * 분)
      with ((18 * 30 + Z.of_nat k * 55) * 분) by lia.
    reflexivity.
  - rewrite (TIMES_head 분 parseHnM 17) by lia.
    replace (Z.of_nat 17 * 30 * 분 + 30 * 분) with (18 * 30 * 분) by lia.
    reflexivity.
Qed.

Lemma TIMES_tail_witness :
  nth_error (TIMES Sample.분 Sample.parseHnM) (18 + 5) = Some "22:35~23:25".
Proof.
  exact (proj1 (TIMES_tail Sample.분 Sample.parseHnM) 5%nat
               (Nat.lt_succ_diag_r 5)).
Defined.

(** ** The click targets *)

(** The handler of the target in row [i], column [j] is the optional call
    of [onScheduleTimeClick] on that day and on slot [i + 1]. *)
Lemma click_handler (St : Type) (DAY_LABELS : list string)
    (CellSize : CellSize.t) (분 : Z) (parseHnM : Z -> string)
    (hook : option (MemoCell (string -> JS.value)))
    (props : Props St) (dndContext : DndContext) (i j : nat) (d : string) :
  (i < 24)%nat ->
  nth_error DAY_LABELS j = Some d ->
  click St
    (fst (ScheduleTable DAY_LABELS CellSize 분 parseHnM St hook props
            dndContext))
    i j
  = Some (optional_call St (onScheduleTimeClick props)
            (TimeInfo.mk d (Z.of_nat i + 1))).
Proof.
  intros Hi Hd. unfold click, ScheduleTable. cbn [fst rendered_rows].
  unfold grid_rows. rewrite mapi_nth.
  destruct (nth_error (TIMES 분 parseHnM) i) as [label|] eqn:E.
  - cbn [option_map cells]. rewrite nth_error_map, Hd. reflexivity.
  - apply nth_error_None in E.
    destruct (TIMES_parts 분 parseHnM) as [head [tail [P [Hh Ht]]]].
    rewrite P, length_app, Hh, Ht in E. lia.
Qed.

(** C3. With a recording callback wired as [onScheduleTimeClick], a click
    on the target in 0-based row [i] of the column of day [d] adds exactly
    one call, with the argument [{day: d, time: i + 1}], to the calls made
    so far; a click in row 5 of the column of day "월" on a fresh recorder
    leaves the single call [{day: "월", time: 6}]. *)
Theorem click_reports_once (DAY_LABELS : list string)
    (CellSize : CellSize.t) (분 : Z) (parseHnM : Z -> string)
    (hook : option (MemoCell (string -> JS.value)))
    (props : Props (list TimeInfo.t)) (dndContext : DndContext) :
  onScheduleTimeClick props = Some spy ->
  let tree :=
    fst (ScheduleTable DAY_LABELS CellSize 분 parseHnM (list TimeInfo.t)
           hook props dndContext) in
  (forall i j d calls,
      (i < 24)%nat ->
      nth_error DAY_LABELS j = Some d ->
      exists handler,
        click (list TimeInfo.t) tree i j = Some handler /\
        handler calls = calls ++ [TimeInfo.mk d (Z.of_nat i + 1)]) /\
  (forall j,
      nth_error DAY_LABELS j = Some "월" ->
      exists handler,
        click (list TimeInfo.t) tree 5 j = Some handler /\
        handler [] = [TimeInfo.mk "월" 6]).
Proof.
  intros Hwired tree.
  assert (G : forall i j d calls,
             (i < 24)%nat ->
             nth_error DAY_LABELS j = Some d ->
             exists handler,
               click (list TimeInfo.t) tree i j = Some handler /\
               handler calls = calls ++ [TimeInfo.mk d (Z.of_nat i + 1)]).
  { intros i j d calls Hi Hd. eexists. split.
    - unfold tree. apply click_handler; eassumption.
    - rewrite Hwired. reflexivity. }
  split; [exact G|].
  intros j Hj. exact (G 5%nat j "월" [] ltac:(lia) Hj).
Qed.

Lemma click_reports_once_witness :
  let tree :=
    fst (ScheduleTable Sample.DAY_LABELS Sample.CellSize Sample.분
           Sample.parseHnM (list TimeInfo.t) None
           (Sample.props Sample.seven) Sample.idle) in
  (exists handler,
      click (list TimeInfo.t) tree 23 4 = Some handler /\
      handler [TimeInfo.mk "화" 1]
      = [TimeInfo.mk "화" 1; TimeInfo.mk "금" 24]) /\
  (exists handler,
      click (list TimeInfo.t) tree 5 0 = Some handler /\
      handler [] = [TimeInfo.mk "월" 6]).
Proof.
  intros tree.
  pose proof (click_reports_once Sample.DAY_LABELS Sample.CellSize
                Sample.분 Sample.parseHnM None (Sample.props Sample.seven)
                Sample.idle eq_refl) as H.
  cbv zeta in H. destruct H as [Hany Hmon]. split.
  - apply (Hany 23%nat 4%nat "금" [TimeInfo.mk "화" 1]);
      [lia | reflexivity].
  - apply (Hmon 0%nat). reflexivity.
Defined.

(** Without a callback a click changes nothing. *)
Lemma click_unwired (St : Type) (timeInfo : TimeInfo.t) (st : St) :
  optional_call St None timeInfo st = st.
Proof. reflexivity. Qed.

(** ** The active table *)

Lemma split_nonempty (sep : ascii) (s : string) : JS.split sep s <> [].
Proof.
  destruct s as [|c rest]; simpl; [discriminate|].
  destruct (Ascii.eqb c sep); [discriminate|].
  destruct (JS.split sep rest); discriminate.
Qed.

(** The first piece of a split is what stands before the first
    separator. *)
Lemma split_before_first (sep : ascii) (p rest : string) :
  contains sep p = false ->
  exists pieces,
    JS.split sep (p ++ String sep rest)%string = p :: pieces.
Proof.
  induction p as [|c p IH]; simpl; intros Hp.
  - rewrite Ascii.eqb_refl. eexists. reflexivity.
  - apply orb_false_iff in Hp. destruct Hp as [Hc Hp].
    rewrite Hc. destruct (IH Hp) as [pieces ->].
    eexists. reflexivity.
Qed.

Lemma append_colon_truthy (p rest : string) :
  truthy (IdString (p ++ ":" ++ rest)%string) = true.
Proof. destruct p; reflexivity. Qed.

Lemma outline_shown (t : string) (dndContext : DndContext) :
  outline t dndContext = JS.Str "5px dashed" <->
  activeTableId dndContext = JS.Str t.
Proof.
  unfold outline.
  destruct (activeTableId dndContext) as [| |a]; simpl;
    try (split; discriminate).
  destruct (String.eqb_spec a t) as [->|Hne].
  - split; reflexivity.
  - split; [discriminate|]. intros [= E]. contradiction.
Qed.

(** The draggable of the schedule at position [index] of a table is
    registered under ["{tableId}:{index}"]. *)
Lemma block_id (St : Type) (DAY_LABELS : list string)
    (CellSize : CellSize.t) (props : Props St)
    (color : string -> JS.value) (index : nat) (schedule : Schedule) :
  nth_error (schedules props) index = Some schedule ->
  exists box,
    nth_error (blocks DAY_LABELS CellSize St props color) index
    = Some (JS.Normal box) /\
    box_id box
    = (tableId props ++ ":" ++ JS.Z_toString (Z.of_nat index))%string.
Proof.
  intros H. unfold blocks. rewrite mapi_nth, H.
  eexists. split; reflexivity.
Qed.

(** C5. While the drag context holds an active id made of a colon-free
    prefix, a colon and a rest, the active table id is that prefix, the
    substring before the first colon, and a table shows the highlight
    outline exactly when its id is that prefix; while the drag context
    holds no active id, the active table id is [null] and no table shows
    the outline.  Dragging ["tableA:2"] makes ["tableA"] the active
    table. *)
Theorem activeTableId_prefix (p rest t : string) :
  contains ":" p = false ->
  let dragged :=
    mkDndContext (Some (mkActive (IdString (p ++ ":" ++ rest)%string))) in
  let idle := mkDndContext None in
  activeTableId dragged = JS.Str p /\
  (outline t dragged = JS.Str "5px dashed" <-> t = p) /\
  (t <> p -> outline t dragged = JS.undefined) /\
  activeTableId idle = JS.null /\
  outline t idle = JS.undefined /\
  activeTableId
    (mkDndContext (Some (mkActive (IdString "tableA:2"))))
  = JS.Str "tableA".
Proof.
  intros Hp dragged idle.
  assert (A : activeTableId dragged = JS.Str p).
  { unfold activeTableId, dragged. cbn [active option_map active_id].
    rewrite append_colon_truthy. cbn [String_].
    destruct (split_before_first ":" p rest Hp) as [pieces E].
    change (p ++ ":" ++ rest)%string with (p ++ String ":" rest)%string.
    rewrite E. reflexivity. }
  split; [exact A|]. split; [|split; [|repeat split]].
  - rewrite outline_shown, A. split; [intros [= ->] | intros ->]; reflexivity.
  - intros Hne. unfold outline. rewrite A. simpl.
    destruct (String.eqb_spec p t) as [->|_]; [contradiction | reflexivity].
Qed.

Lemma activeTableId_prefix_witness :
  activeTableId (Sample.dragging "tableB:11") = JS.Str "tableB" /\
  (outline "tableB" (Sample.dragging "tableB:11") = JS.Str "5px dashed"
   <-> "tableB" = "tableB") /\
  outline "tableA" (Sample.dragging "tableB:11") = JS.undefined.
Proof.
  destruct (activeTableId_prefix "tableB" "11" "tableB" eq_refl)
    as [H1 [H2 _]].
  destruct (activeTableId_prefix "tableB" "11" "tableA" eq_refl)
    as [_ [_ [H3 _]]].
  split; [exact H1|]. split; [exact H2|].
  apply H3. discriminate.
Defined.

(** ** More on the placement of a block *)

Lemma track_start_repeat (a w : Z) (n k : nat) :
  (k <= n)%nat ->
  track_start (a :: repeat w n) (S k) = a + Z.of_nat k * w.
Proof.
  unfold track_start. cbn [firstn fold_right]. intros Hk. f_equal.
  revert n Hk. induction k as [|k IH]; intros n Hk.
  - reflexivity.
  - destruct n as [|n]; [lia|]. cbn [repeat firstn fold_right].
    rewrite IH by lia. lia.
Qed.

Lemma rect_numbers (DAY_LABELS : list string) (CellSize : CellSize.t)
    (data : Schedule) (first : Z) (rest : list Z) :
  range data = first :: rest ->
  rect DAY_LABELS CellSize data =
  mkRect
    (JS.Num (120 + CellSize.WIDTH CellSize
                   * JS.indexOf DAY_LABELS (day data) + 1))
    (JS.Num (40 + ((first - 1) * CellSize.HEIGHT CellSize + 1)))
    (JS.Num (CellSize.WIDTH CellSize - 1))
    (JS.Num (CellSize.HEIGHT CellSize
             * Z.of_nat (List.length (range data)) - 1)).
Proof.
  intros Hrange. unfold rect, leftIndex, topIndex, size.
  rewrite Hrange. reflexivity.
Qed.

(** X1. A block covers exactly the grid tracks of its slots, one pixel in
    from the left and the top: it begins one pixel after the start of the
    column track of its day and ends where the next column track starts;
    it begins one pixel after the start of the row track of its first slot
    and ends where the row track after its last slot starts. *)
Theorem block_covers_tracks (DAY_LABELS : list string)
    (CellSize : CellSize.t) (분 : Z) (parseHnM : Z -> string)
    (data : Schedule) (dayIndex : nat) (first : Z) (rest : list Z) :
  first_position (day data) DAY_LABELS dayIndex ->
  range data = first :: rest ->
  1 <= first ->
  first + Z.of_nat (List.length (range data)) - 1 <= 24 ->
  let cols := column_tracks DAY_LABELS CellSize in
  let rows := row_tracks CellSize 분 parseHnM in
  let last := first + Z.of_nat (List.length (range data)) - 1 in
  exists l t w h,
    rect DAY_LABELS CellSize data
    = mkRect (JS.Num l) (JS.Num t) (JS.Num w) (JS.Num h) /\
    l = track_start cols (S dayIndex) + 1 /\
    l + w = track_start cols (S (S dayIndex)) /\
    t = track_start rows (Z.to_nat first) + 1 /\
    t + h = track_start rows (S (Z.to_nat last)).
Proof.
  intros Hday Hrange Hfirst Hlast cols rows last.
  pose proof (first_position_bound _ _ _ Hday) as Hbound.
  destruct (TIMES_parts 분 parseHnM) as [hd [tl [P [Hh Ht]]]].
  assert (Hrows : rows = 40 :: repeat (CellSize.HEIGHT CellSize) 24).
  { unfold rows, row_tracks. rewrite P, length_app, Hh, Ht. reflexivity. }
  do 4 eexists. split; [exact (rect_numbers _ _ _ _ _ Hrange)|].
  rewrite (indexOf_first _ _ _ Hday).
  unfold cols, column_tracks. rewrite Hrows.
  rewrite !track_start_repeat by lia.
  replace (Z.to_nat first) with (S (Z.to_nat (first - 1))) by lia.
  rewrite track_start_repeat by lia.
  unfold last. rewrite !Z2Nat.id, Nat2Z.inj_succ by lia.
  repeat split; ring.
Qed.

Lemma block_covers_tracks_witness :
  exists l t w h,
    rect Sample.DAY_LABELS Sample.CellSize
         (Sample.schedule_of "화" [3; 4; 5] "L0")
    = mkRect (JS.Num l) (JS.Num t) (JS.Num w) (JS.Num h) /\
    l = 200 + 1 /\ l + w = 280 /\ t = 100 + 1 /\ t + h = 190.
Proof.
  apply (block_covers_tracks Sample.DAY_LABELS Sample.CellSize Sample.분
           Sample.parseHnM (Sample.schedule_of "화" [3; 4; 5] "L0")
           1%nat 3 [4; 5]).
  - split; [reflexivity|].
    intros [|j] Hj; [discriminate | lia].
  - reflexivity.
  - lia.
  - simpl. lia.
Defined.

(** X2. With a positive cell height, a block whose range starts after the
    last slot of another block begins strictly below the end of that block;
    when it starts at the very next slot, exactly one pixel below. *)
Theorem blocks_stack_vertically (DAY_LABELS : list string)
    (CellSize : CellSize.t) (upper lower : Schedule)
    (first1 first2 : Z) (rest1 rest2 : list Z) :
  0 < CellSize.HEIGHT CellSize ->
  range upper = first1 :: rest1 ->
  range lower = first2 :: rest2 ->
  first1 + Z.of_nat (List.length (range upper)) <= first2 ->
  exists t1 h1 t2,
    top (rect DAY_LABELS CellSize upper) = JS.Num t1 /\
    height (rect DAY_LABELS CellSize upper) = JS.Num h1 /\
    top (rect DAY_LABELS CellSize lower) = JS.Num t2 /\
    t1 + h1 < t2 /\
    (first2 = first1 + Z.of_nat (List.length (range upper)) ->
     t2 = t1 + h1 + 1).
Proof.
  intros HH H1 H2 Hle.
  rewrite (rect_numbers _ _ _ _ _ H1), (rect_numbers _ _ _ _ _ H2).
  cbn [top height]. do 3 eexists. repeat split; try reflexivity.
  - nia.
  - intros ->. lia.
Qed.

Lemma blocks_stack_vertically_witness :
  exists t1 h1 t2,
    top (rect Sample.DAY_LABELS Sample.CellSize
           (Sample.schedule_of "월" [1; 2] "L0")) = JS.Num t1 /\
    height (rect Sample.DAY_LABELS Sample.CellSize
              (Sample.schedule_of "월" [1; 2] "L0")) = JS.Num h1 /\
    top (rect Sample.DAY_LABELS Sample.CellSize
           (Sample.schedule_of "월" [3; 4; 5] "L1")) = JS.Num t2 /\
    t1 + h1 < t2 /\
    (3 = 1 + Z.of_nat 2 -> t2 = t1 + h1 + 1).
Proof.
  apply (blocks_stack_vertically Sample.DAY_LABELS Sample.CellSize
           (Sample.schedule_of "월" [1; 2] "L0")
           (Sample.schedule_of "월" [3; 4; 5] "L1") 1 3 [2] [4; 5]).
  - reflexivity.
  - reflexivity.
  - reflexivity.
  - simpl. lia.
Defined.

(** X3. With positive cell sizes, the block of a schedule on a valid day
    whose slots lie between 1 and 24 stays inside the grid below the
    header row and right of the header column: it never reaches into the
    headers and never leaves the last column or the last row. *)
Theorem block_inside_grid (DAY_LABELS : list string)
    (CellSize : CellSize.t) (data : Schedule) (first : Z) (rest : list Z) :
  0 < CellSize.WIDTH CellSize ->
  0 < CellSize.HEIGHT CellSize ->
  In (day data) DAY_LABELS ->
  range data = first :: rest ->
  1 <= first ->
  first + Z.of_nat (List.length (range data)) - 1 <= 24 ->
  exists l t w h,
    rect DAY_LABELS CellSize data
    = mkRect (JS.Num l) (JS.Num t) (JS.Num w) (JS.Num h) /\
    120 < l /\
    l + w <= 120 + Z.of_nat (List.length DAY_LABELS) * CellSize.WIDTH CellSize /\
    40 < t /\
    t + h <= 40 + 24 * CellSize.HEIGHT CellSize /\
    0 <= w /\ 0 <= h.
Proof.
  intros HW HH Hin Hrange Hfirst Hlast.
  destruct (In_first_position _ _ Hin) as [i Hi].
  pose proof (first_position_bound _ _ _ Hi) as Hb.
  do 4 eexists. split; [exact (rect_numbers _ _ _ _ _ Hrange)|].
  rewrite (indexOf_first _ _ _ Hi).
  assert (0 < Z.of_nat (List.length (range data)))
    by (rewrite Hrange; simpl List.length; lia).
  repeat split; nia.
Qed.

Lemma block_inside_grid_witness :
  exists l t w h,
    rect Sample.DAY_LABELS Sample.CellSize
         (Sample.schedule_of "금" [23; 24] "L0")
    = mkRect (JS.Num l) (JS.Num t) (JS.Num w) (JS.Num h) /\
    120 < l /\ l + w <= 120 + Z.of_nat 5 * 80 /\
    40 < t /\ t + h <= 40 + 24 * 30 /\ 0 <= w /\ 0 <= h.
Proof.
  apply (block_inside_grid Sample.DAY_LABELS Sample.CellSize
           (Sample.schedule_of "금" [23; 24] "L0") 23 [24]).
  - reflexivity.
  - reflexivity.
  - simpl. tauto.
  - reflexivity.
  - lia.
  - simpl. lia.
Defined.

(** ** More on the colours *)

Lemma colors_NoDup : NoDup colors.
Proof.
  unfold colors.
  repeat (constructor;
          [simpl; intros H;
           repeat (destruct H as [H|H]; [discriminate H|]); exact H|]).
  constructor.
Qed.

Lemma lectures_In (schedules : list Schedule) (x : string) :
  In x (lectures schedules) <->
  In x (map (fun s => id (lecture s)) schedules).
Proof. rewrite lectures_first_seen. apply unique_first_seen_In. Qed.

Lemma lectures_NoDup (schedules : list Schedule) :
  NoDup (lectures schedules).
Proof. rewrite lectures_first_seen. apply unique_first_seen_NoDup. Qed.

Lemma NoDup_first_position (l : list string) (x : string) (i : nat) :
  NoDup l -> nth_error l i = Some x -> first_position x l i.
Proof.
  intros ND Hx. split; [exact Hx|].
  intros j Hj E.
  assert (j = i); [|lia].
  apply (proj1 (NoDup_nth_error l) ND).
  - apply nth_error_Some. rewrite E. discriminate.
  - now rewrite E, Hx.
Qed.

Lemma indexOf_from_app (l more : list string) (x : string) :
  In x l ->
  forall k, JS.indexOf_from k (l ++ more) x = JS.indexOf_from k l x.
Proof.
  induction l as [|y l IH]; intros Hin k; [contradiction|].
  simpl. destruct (String.eqb_spec y x) as [_|Hne]; [reflexivity|].
  apply IH. destruct Hin as [E|H]; [contradiction | exact H].
Qed.

(** The ids collected from a longer list begin with the ids collected from
    its front. *)
Lemma lectures_app (front back : list Schedule) :
  exists more, lectures (front ++ back) = lectures front ++ more.
Proof.
  unfold lectures, JS.Set_from. rewrite map_app, fold_left_app.
  rewrite fold_Set_add. eexists. reflexivity.
Qed.

Lemma In_mapi {A B : Type} (f : A -> Z -> B) (arr : list A) (b : B) :
  In b (JS.mapi f arr) ->
  exists i v, nth_error arr i = Some v /\ b = f v (Z.of_nat i).
Proof.
  intros H. apply In_nth_error in H. destruct H as [i Hi].
  rewrite mapi_nth in Hi.
  destruct (nth_error arr i) as [v|] eqn:E; [|discriminate].
  injection Hi as <-. exists i, v. split; [exact E | reflexivity].
Qed.


Lemma useGetColor_value (cell : option (MemoCell (string -> JS.value)))
    (schedules_ref : nat) (schedules : list Schedule) :
  coherent cell schedules_ref schedules ->
  forall x,
    memo_value (useGetColor cell schedules_ref schedules) x
    = getColor schedules x.
Proof.
  intros Hcell x. unfold useGetColor, useMemo.
  destruct cell as [c|]; [|reflexivity].
  destruct (Nat.eqb_spec (memo_deps c) schedules_ref) as [E|_].
  - apply Hcell, E.
  - reflexivity.
Qed.

(** X4. The collected lecture ids hold every lecture id of the schedule
    list, nothing else, and each of them once. *)
Theorem lectures_exact (schedules : list Schedule) :
  NoDup (lectures schedules) /\
  forall x,
    In x (lectures schedules) <->
    exists s, In s schedules /\ id (lecture s) = x.
Proof.
  split; [apply lectures_NoDup|].
  intros x. rewrite lectures_In, in_map_iff.
  split; intros [s [H1 H2]]; exists s; tauto.
Qed.

(** X5. When the memo slot agrees with the schedules array, every block
    the table renders has a colour of the palette as its background:
    no block is left without one. *)
Theorem blocks_have_palette_colour (DAY_LABELS : list string)
    (CellSize : CellSize.t) (분 : Z) (parseHnM : Z -> string) (St : Type)
    (hook : option (MemoCell (string -> JS.value)))
    (props : Props St) (dndContext : DndContext) :
  coherent hook (schedules_ref props) (schedules props) ->
  forall block,
    In block
       (rendered_blocks
          (fst (ScheduleTable DAY_LABELS CellSize 분 parseHnM St hook props
                  dndContext))) ->
    exists box colour,
      block = JS.Normal box /\
      box_bg box = JS.Str colour /\
      In colour colors.
Proof.
  intros Hhook block Hin. unfold ScheduleTable in Hin.
  cbn [fst rendered_blocks] in Hin. unfold blocks in Hin.
  apply In_mapi in Hin. destruct Hin as [i [s [Hs ->]]].
  rewrite (useGetColor_value _ _ _ Hhook).
  assert (Hid : In (id (lecture s)) (lectures (schedules props))).
  { apply lectures_In, in_map_iff. exists s. split; [reflexivity|].
    eapply nth_error_In, Hs. }
  destruct (In_first_position _ _ Hid) as [k Hk].
  destruct (getColor_at _ _ _ Hk) as [c [Hc E]].
  eexists. exists c. split; [reflexivity|]. split; [exact E|].
  eapply nth_error_In, Hc.
Qed.

Lemma blocks_have_palette_colour_witness :
  exists box colour,
    JS.Normal (mkBox "tableA:0" "121px" "41px" "79px" "59px"
                     (JS.Str "#fdd") "강의 L0" "101")
    = JS.Normal box /\
    box_bg box = JS.Str colour /\
    In colour colors.
Proof.
  apply (blocks_have_palette_colour Sample.DAY_LABELS Sample.CellSize
           Sample.분 Sample.parseHnM (list TimeInfo.t) None
           (Sample.props Sample.seven) Sample.idle).
  - exact I.
  - left. vm_compute. reflexivity.
Defined.

(** X6. While a schedule list has at most 6 different lectures, different
    lectures of the list get different colours. *)
Theorem getColor_injective (schedules : list Schedule) (x y : string) :
  (List.length (lectures schedules) <= 6)%nat ->
  In x (map (fun s => id (lecture s)) schedules) ->
  In y (map (fun s => id (lecture s)) schedules) ->
  x <> y ->
  getColor schedules x <> getColor schedules y.
Proof.
  intros Hlen Hx Hy Hne E. apply Hne.
  apply lectures_In in Hx. apply lectures_In in Hy.
  destruct (In_first_position _ _ Hx) as [i Hi].
  destruct (In_first_position _ _ Hy) as [j Hj].
  pose proof (first_position_bound _ _ _ Hi) as Bi.
  pose proof (first_position_bound _ _ _ Hj) as Bj.
  destruct (getColor_at _ _ _ Hi) as [c [Hc Ec]].
  destruct (getColor_at _ _ _ Hj) as [d [Hd Ed]].
  rewrite Ec, Ed in E. injection E as <-.
  rewrite Nat.mod_small in Hc, Hd by lia.
  assert (i = j).
  { apply (proj1 (NoDup_nth_error colors) colors_NoDup).
    - rewrite colors_length. lia.
    - now rewrite Hc, Hd. }
  subst j. exact (first_position_inj _ _ _ _ Hi Hj).
Qed.

Lemma getColor_injective_witness :
  getColor (firstn 8 Sample.seven) "L2"
  <> getColor (firstn 8 Sample.seven) "L5".
Proof.
  apply (getColor_injective (firstn 8 Sample.seven) "L2" "L5").
  - simpl. lia.
  - simpl. tauto.
  - simpl. tauto.
  - discriminate.
Defined.

(** X7. As soon as a schedule list has 7 or more different lectures, two
    different lectures of the list share a colour. *)
Theorem getColor_collides (schedules : list Schedule) :
  (7 <= List.length (lectures schedules))%nat ->
  exists x y,
    x <> y /\
    In x (map (fun s => id (lecture s)) schedules) /\
    In y (map (fun s => id (lecture s)) schedules) /\
    getColor schedules x = getColor schedules y.
Proof.
  intros Hlen.
  pose proof (lectures_NoDup schedules) as ND.
  destruct (nth_error (lectures schedules) 0) as [x|] eqn:Ex;
    [|apply nth_error_None in Ex; lia].
  destruct (nth_error (lectures schedules) 6) as [y|] eqn:Ey;
    [|apply nth_error_None in Ey; lia].
  exists x, y.
  pose proof (NoDup_first_position _ _ _ ND Ex) as Px.
  pose proof (NoDup_first_position _ _ _ ND Ey) as Py.
  split; [|split; [|split]].
  - intros ->.
    assert (0 = 6)%nat; [|lia].
    apply (proj1 (NoDup_nth_error _) ND); [lia | now rewrite Ex, Ey].
  - apply lectures_In. eapply nth_error_In, Ex.
  - apply lectures_In. eapply nth_error_In, Ey.
  - destruct (getColor_at _ _ _ Px) as [c [Hc ->]].
    destruct (getColor_at _ _ _ Py) as [d [Hd ->]].
    change (6 mod 6)%nat with (0 mod 6)%nat in Hd.
    rewrite Hc in Hd. now injection Hd as ->.
Qed.

Lemma getColor_collides_witness :
  exists x y,
    x <> y /\
    In x (map (fun s => id (lecture s)) Sample.seven) /\
    In y (map (fun s => id (lecture s)) Sample.seven) /\
    getColor Sample.seven x = getColor Sample.seven y.
Proof.
  apply (getColor_collides Sample.seven). simpl. lia.
Defined.

(** X8. Schedules added at the end of the list leave the colour of every
    lecture that was already in the list as it was. *)
Theorem getColor_append (front back : list Schedule) (x : string) :
  In x (map (fun s => id (lecture s)) front) ->
  getColor (front ++ back) x = getColor front x.
Proof.
  intros Hx. apply lectures_In in Hx.
  destruct (lectures_app front back) as [more E].
  unfold getColor, JS.indexOf. rewrite E.
  now rewrite indexOf_from_app.
Qed.

Lemma getColor_append_witness :
  getColor (firstn 4 Sample.seven ++ skipn 4 Sample.seven) "L2"
  = getColor (firstn 4 Sample.seven) "L2".
Proof.
  apply (getColor_append (firstn 4 Sample.seven) (skipn 4 Sample.seven)).
  simpl. tauto.
Defined.

(** ** More on splitting and on decimal numerals *)

Lemma contains_app (c : ascii) (a b : string) :
  contains c (a ++ b)%string = contains c a || contains c b.
Proof.
  induction a as [|x a IH]; simpl; [reflexivity|].
  now rewrite IH, orb_assoc.
Qed.


(** The first piece of a split has no separator in it, and the string is
    that piece alone or that piece, a separator and a rest. *)
Lemma split_first (sep : ascii) (s : string) :
  exists p pieces,
    JS.split sep s = p :: pieces /\
    contains sep p = false /\
    (s = p \/ exists rest, s = (p ++ String sep rest)%string).
Proof.
  induction s as [|c s IH]; simpl.
  - exists EmptyString, []. repeat split. now left.
  - destruct (Ascii.eqb_spec c sep) as [->|Hne].
    + exists EmptyString. eexists. split; [reflexivity|].
      split; [reflexivity|]. right. exists s. reflexivity.
    + destruct IH as [p [pieces [E [Hp Hs]]]]. rewrite E.
      exists (String c p), pieces. split; [reflexivity|]. split.
      * simpl. rewrite Hp, orb_false_r. now apply Ascii.eqb_neq.
      * destruct Hs as [->|[rest ->]]; [now left|].
        right. exists rest. reflexivity.
Qed.

(** Two strings cut at their first separator agree piece by piece. *)
Lemma cut_at_first_inj (c : ascii) (p1 p2 r1 r2 : string) :
  contains c p1 = false ->
  contains c p2 = false ->
  (p1 ++ String c r1)%string = (p2 ++ String c r2)%string ->
  p1 = p2 /\ r1 = r2.
Proof.
  revert p2. induction p1 as [|x p1 IH]; intros [|y p2] H1 H2 E; simpl in *.
  - injection E as ->. split; reflexivity.
  - injection E as <- _. now rewrite Ascii.eqb_refl in H2.
  - injection E as -> _. now rewrite Ascii.eqb_refl in H1.
  - injection E as -> E.
    apply orb_false_iff in H1. apply orb_false_iff in H2.
    destruct (IH p2 (proj2 H1) (proj2 H2) E) as [-> ->].
    split; reflexivity.
Qed.

(** Two strings cut at their last separator agree piece by piece. *)
Lemma cut_at_last_inj (c : ascii) (a1 a2 d1 d2 : string) :
  contains c d1 = false ->
  contains c d2 = false ->
  (a1 ++ String c d1)%string = (a2 ++ String c d2)%string ->
  a1 = a2 /\ d1 = d2.
Proof.
  revert a2. induction a1 as [|x a1 IH]; intros [|y a2] H1 H2 E; simpl in *.
  - injection E as ->. split; reflexivity.
  - injection E as _ ->.
    rewrite contains_app in H1. simpl in H1.
    now rewrite Ascii.eqb_refl, orb_true_r in H1.
  - injection E as _ <-.
    rewrite contains_app in H2. simpl in H2.
    now rewrite Ascii.eqb_refl, orb_true_r in H2.
  - injection E as -> E.
    destruct (IH a2 H1 H2 E) as [-> ->]. split; reflexivity.
Qed.

Lemma append_same_prefix (a b c : string) :
  (a ++ b)%string = (a ++ c)%string -> b = c.
Proof.
  induction a as [|x a IH]; simpl; intros E; [exact E|].
  injection E as E. exact (IH E).
Qed.

(** A numeral has only digits in it. *)
Lemma string_of_uint_digits (c : ascii) (d : Decimal.uint) :
  contains c "0123456789" = false ->
  contains c (NilEmpty.string_of_uint d) = false.
Proof.
  intros H. simpl in H.
  repeat (apply orb_false_iff in H; destruct H as [? H]).
  induction d; simpl; try reflexivity;
    rewrite IHd, orb_false_r; assumption.
Qed.


Lemma Z_toString_no_dash (z : Z) :
  0 <= z -> contains "-" (JS.Z_toString z) = false.
Proof.
  intros Hz. unfold JS.Z_toString.
  destruct z as [|p|p]; [reflexivity | | lia].
  unfold Z.to_int, NilEmpty.string_of_int.
  now apply string_of_uint_digits.
Qed.

Lemma Z_toString_inj (a b : Z) :
  JS.Z_toString a = JS.Z_toString b -> a = b.
Proof.
  unfold JS.Z_toString. intros E.
  apply DecimalZ.to_int_inj.
  pose proof (NilEmpty.isi (Z.to_int a)) as Ha.
  rewrite E, NilEmpty.isi in Ha. now injection Ha.
Qed.

Lemma Z_toString_nat_inj (i j : nat) :
  JS.Z_toString (Z.of_nat i) = JS.Z_toString (Z.of_nat j) -> i = j.
Proof. intros E. apply Z_toString_inj in E. lia. Qed.

(** ** More on the active table *)

Lemma activeTableId_cut (p rest : string) :
  contains ":" p = false ->
  activeTableId
    (mkDndContext (Some (mkActive (IdString (p ++ ":" ++ rest)%string))))
  = JS.Str p.
Proof.
  intros Hp. unfold activeTableId. cbn [active option_map active_id].
  rewrite append_colon_truthy. cbn [String_].
  destruct (split_before_first ":" p rest Hp) as [pieces E].
  change (p ++ ":" ++ rest)%string with (p ++ String ":" rest)%string.
  rewrite E. reflexivity.
Qed.

Lemma outline_hidden (t : string) (dndContext : DndContext) :
  activeTableId dndContext <> JS.Str t ->
  outline t dndContext = JS.undefined.
Proof.
  intros H. unfold outline.
  destruct (activeTableId dndContext) as [| |a]; simpl; try reflexivity.
  destruct (String.eqb_spec a t) as [->|_]; [contradiction | reflexivity].
Qed.

Lemma nth_block_id (St : Type) (DAY_LABELS : list string)
    (CellSize : CellSize.t) (props : Props St)
    (color : string -> JS.value) (index : nat) (box : Box) :
  nth_error (blocks DAY_LABELS CellSize St props color) index
  = Some (JS.Normal box) ->
  box_id box
  = (tableId props ++ ":" ++ JS.Z_toString (Z.of_nat index))%string.
Proof.
  unfold blocks. rewrite mapi_nth.
  destruct (nth_error (schedules props) index) as [s|]; [|discriminate].
  simpl. intros [= <-]. reflexivity.
Qed.

(** X9. For a drag id that is a string: the empty string counts as no
    drag at all; any other id makes the active table the id itself when it
    has no colon, and what stands before its first colon when it has
    one. *)
Theorem activeTableId_of_string (s : string) :
  let dragged := mkDndContext (Some (mkActive (IdString s))) in
  (s = EmptyString -> activeTableId dragged = JS.null) /\
  (s <> EmptyString ->
   exists p,
     activeTableId dragged = JS.Str p /\
     contains ":" p = false /\
     (s = p \/ exists rest, s = (p ++ ":" ++ rest)%string)).
Proof.
  intros dragged. split.
  - intros ->. reflexivity.
  - intros Hs. unfold dragged, activeTableId.
    cbn [active option_map active_id truthy String_].
    destruct (String.eqb_spec s "") as [E|_]; [contradiction|].
    cbn [negb].
    destruct (split_first ":" s) as [p [pieces [E [Hp Hcut]]]].
    rewrite E. exists p. split; [reflexivity|]. split; [exact Hp|].
    exact Hcut.
Qed.

Lemma activeTableId_of_string_witness :
  exists p,
    activeTableId (Sample.dragging "a:b:0") = JS.Str p /\
    contains ":" p = false /\
    ("a:b:0" = p \/ exists rest, "a:b:0" = (p ++ ":" ++ rest)%string).
Proof.
  apply (proj2 (activeTableId_of_string "a:b:0")). discriminate.
Defined.


(** X11. While a block of a table whose id has no colon is dragged, that
    table shows the outline and no table with another id does. *)
Theorem dragging_block_outlines_its_table (DAY_LABELS : list string)
    (CellSize : CellSize.t) (분 : Z) (parseHnM : Z -> string) (St : Type)
    (hook : option (MemoCell (string -> JS.value)))
    (props : Props St) (dndContext : DndContext)
    (index : nat) (box : Box) (other : string) :
  contains ":" (tableId props) = false ->
  nth_error
    (rendered_blocks
       (fst (ScheduleTable DAY_LABELS CellSize 분 parseHnM St hook props
               dndContext)))
    index
  = Some (JS.Normal box) ->
  let dragged := mkDndContext (Some (mkActive (IdString (box_id box)))) in
  outline (tableId props) dragged = JS.Str "5px dashed" /\
  (other <> tableId props -> outline other dragged = JS.undefined).
Proof.
  intros Hid Hbox dragged.
  unfold ScheduleTable in Hbox. cbn [fst rendered_blocks] in Hbox.
  assert (A : activeTableId dragged = JS.Str (tableId props)).
  { unfold dragged. rewrite (nth_block_id _ _ _ _ _ _ _ Hbox).
    apply activeTableId_cut, Hid. }
  split.
  - apply outline_shown, A.
  - intros Hne. apply outline_hidden. rewrite A.
    intros [= E]. apply Hne. now symmetry.
Qed.

Lemma dragging_block_outlines_its_table_witness :
  outline "tableA" (Sample.dragging "tableA:8") = JS.Str "5px dashed" /\
  ("tableB" <> "tableA" ->
   outline "tableB" (Sample.dragging "tableA:8") = JS.undefined).
Proof.
  refine (dragging_block_outlines_its_table Sample.DAY_LABELS
            Sample.CellSize Sample.분 Sample.parseHnM (list TimeInfo.t) None
            (Sample.props Sample.seven) Sample.idle 8%nat
            (mkBox "tableA:8" "121px" "41px" "79px" "59px"
                   (JS.Str "#fdd") "강의 L6" "101")
            "tableB" _ _).
  - reflexivity.
  - vm_compute. reflexivity.
Defined.

(** X12. A table whose id has a colon in it never shows the outline while
    one of its own blocks is dragged: the active table id is cut at the
    first colon and cannot be the id of the table. *)
Theorem colon_in_tableId_hides_outline (t index : string) :
  contains ":" t = true ->
  outline t
    (mkDndContext (Some (mkActive (IdString (t ++ ":" ++ index)%string))))
  = JS.undefined.
Proof.
  intros Ht. apply outline_hidden.
  assert (Hs : (t ++ ":" ++ index)%string <> EmptyString)
    by (destruct t; discriminate).
  unfold activeTableId. cbn [active option_map active_id truthy String_].
  destruct (String.eqb_spec (t ++ ":" ++ index) "") as [E|_];
    [contradiction|].
  cbn [negb].
  destruct (split_first ":" (t ++ ":" ++ index)) as [p [pieces [E [Hp _]]]].
  rewrite E. cbn. intros [= ->]. rewrite Hp in Ht. discriminate.
Qed.

Lemma colon_in_tableId_hides_outline_witness :
  outline "week:1" (Sample.dragging "week:1:0") = JS.undefined.
Proof.
  apply (colon_in_tableId_hides_outline "week:1" "0"). reflexivity.
Defined.

(** X13. Within one table the blocks are registered under pairwise
    different drag ids, whatever the id of the table is. *)
Theorem block_ids_distinct (St : Type) (DAY_LABELS : list string)
    (CellSize : CellSize.t) (props : Props St)
    (color : string -> JS.value) (i j : nat) (bi bj : Box) :
  i <> j ->
  nth_error (blocks DAY_LABELS CellSize St props color) i
  = Some (JS.Normal bi) ->
  nth_error (blocks DAY_LABELS CellSize St props color) j
  = Some (JS.Normal bj) ->
  box_id bi <> box_id bj.
Proof.
  intros Hne Hi Hj E. apply Hne.
  rewrite (nth_block_id _ _ _ _ _ _ _ Hi) in E.
  rewrite (nth_block_id _ _ _ _ _ _ _ Hj) in E.
  apply append_same_prefix, append_same_prefix in E.
  exact (Z_toString_nat_inj _ _ E).
Qed.

Lemma block_ids_distinct_witness :
  box_id (mkBox "tableA:0" "121px" "41px" "79px" "59px" (JS.Str "#fdd")
                "강의 L0" "101")
  <> box_id (mkBox "tableA:2" "121px" "41px" "79px" "59px" (JS.Str "#fdd")
                   "강의 L0" "101").
Proof.
  apply (block_ids_distinct (list TimeInfo.t) Sample.DAY_LABELS
           Sample.CellSize (Sample.props Sample.seven)
           (getColor Sample.seven) 0 2).
  - lia.
  - vm_compute. reflexivity.
  - vm_compute. reflexivity.
Defined.

(** X14. A drag id names its block: when the ids of two tables have no
    colon in them, blocks of tables with different ids, and blocks at
    different indices, are registered under different drag ids. *)
Theorem block_id_names_block (St : Type) (DAY_LABELS : list string)
    (CellSize : CellSize.t) (props1 props2 : Props St)
    (color1 color2 : string -> JS.value) (i j : nat) (bi bj : Box) :
  contains ":" (tableId props1) = false ->
  contains ":" (tableId props2) = false ->
  tableId props1 <> tableId props2 \/ i <> j ->
  nth_error (blocks DAY_LABELS CellSize St props1 color1) i
  = Some (JS.Normal bi) ->
  nth_error (blocks DAY_LABELS CellSize St props2 color2) j
  = Some (JS.Normal bj) ->
  box_id bi <> box_id bj.
Proof.
  intros H1 H2 Hne Hi Hj E.
  rewrite (nth_block_id _ _ _ _ _ _ _ Hi) in E.
  rewrite (nth_block_id _ _ _ _ _ _ _ Hj) in E.
  destruct (cut_at_first_inj ":" _ _ _ _ H1 H2 E) as [Et En].
  apply Z_toString_nat_inj in En. tauto.
Qed.

Lemma block_id_names_block_witness :
  box_id (mkBox "tableA:1" "121px" "41px" "79px" "59px" (JS.Str "#ffd")
                "강의 L1" "101")
  <> box_id (mkBox "tableB:1" "121px" "41px" "79px" "59px" (JS.Str "#ffd")
                   "강의 L1" "101").
Proof.
  apply (block_id_names_block (list TimeInfo.t) Sample.DAY_LABELS
           Sample.CellSize (Sample.props Sample.seven)
           (mkProps "tableB" 1%nat Sample.seven (Some spy))
           (getColor Sample.seven) (getColor Sample.seven) 1 1).
  - reflexivity.
  - reflexivity.
  - left. discriminate.
  - vm_compute. reflexivity.
  - vm_compute. reflexivity.
Defined.

(** ** More on the time axis *)

(** X15. The first 18 rows tile the first nine hours in half hours: row
    [k + 1] runs from [30 * k] to [30 * (k + 1)] minutes, so each begins
    where the row before it ends.  From row 19 on, a row begins five
    minutes after the end shown by the row before it. *)
Theorem TIMES_rows (분 : Z) (parseHnM : Z -> string) :
  (forall k,
      (k < 18)%nat ->
      nth_error (TIMES 분 parseHnM) k =
      Some (parseHnM (Z.of_nat k * 30 * 분) ++ "~"
            ++ parseHnM ((Z.of_nat k + 1) * 30 * 분))%string) /\
  (forall k,
      (k < 5)%nat ->
      exists start,
        nth_error (TIMES 분 parseHnM) (18 + k) =
        Some (parseHnM start ++ "~" ++ parseHnM (start + 50 * 분))%string /\
        nth_error (TIMES 분 parseHnM) (18 + S k) =
        Some (parseHnM (start + 50 * 분 + 5 * 분) ++ "~"
              ++ parseHnM (start + 50 * 분 + 5 * 분 + 50 * 분))%string).
Proof.
  split.
  - intros k Hk. rewrite TIMES_head by exact Hk.
    replace (Z.of_nat k * 30 * 분 + 30 * 분)
      with ((Z.of_nat k + 1) * 30 * 분) by lia.
    reflexivity.
  - intros k Hk.
    assert (T : forall i,
               (i < 6)%nat ->
               nth_error (TIMES 분 parseHnM) (18 + i) =
               Some (parseHnM (18 * 30 * 분 + Z.of_nat i * 55 * 분) ++ "~"
                     ++ parseHnM (18 * 30 * 분 + Z.of_nat i * 55 * 분
                                  + 50 * 분))%string).
    { intros i Hi. unfold TIMES.
      rewrite nth_error_app2 by (rewrite length_map, mapi_length; simpl; lia).
      rewrite length_map, mapi_length.
      replace (18 + i - List.length (JS.Array_fill 18 0%Z))%nat with i
        by (simpl; lia).
      rewrite nth_error_map, mapi_nth, Array_fill_nth by exact Hi.
      reflexivity. }
    exists (18 * 30 * 분 + Z.of_nat k * 55 * 분).
    split; [apply T; lia|].
    rewrite (T (S k)) by lia.
    replace (18 * 30 * 분 + Z.of_nat (S k) * 55 * 분)
      with (18 * 30 * 분 + Z.of_nat k * 55 * 분 + 50 * 분 + 5 * 분) by lia.
    reflexivity.
Qed.

Lemma TIMES_rows_witness :
  nth_error (TIMES Sample.분 Sample.parseHnM) 3 = Some "10:30~11:00" /\
  exists start,
    nth_error (TIMES Sample.분 Sample.parseHnM) (18 + 1) =
    Some (Sample.parseHnM start ++ "~"
          ++ Sample.parseHnM (start + 50 * Sample.분))%string /\
    nth_error (TIMES Sample.분 Sample.parseHnM) (18 + 2) =
    Some (Sample.parseHnM (start + 50 * Sample.분 + 5 * Sample.분) ++ "~"
          ++ Sample.parseHnM (start + 50 * Sample.분 + 5 * Sample.분
                              + 50 * Sample.분))%string.
Proof.
  split.
  - exact (proj1 (TIMES_rows Sample.분 Sample.parseHnM) 3%nat ltac:(lia)).
  - exact (proj2 (TIMES_rows Sample.분 Sample.parseHnM) 1%nat ltac:(lia)).
Defined.

(** ** Render passes *)


(** ** Keys and delete buttons of the blocks *)

Lemma NoDup_mapi_index {A B : Type} (g : A -> Z -> B) (arr : list A) :
  (forall i j a b,
      nth_error arr i = Some a ->
      nth_error arr j = Some b ->
      g a (Z.of_nat i) = g b (Z.of_nat j) ->
      i = j) ->
  NoDup (JS.mapi g arr).
Proof.
  intros Hinj. apply NoDup_nth_error. intros i j Hi E.
  rewrite mapi_length in Hi. rewrite !mapi_nth in E.
  destruct (nth_error arr i) as [a|] eqn:Ea;
    [|apply nth_error_None in Ea; lia].
  destruct (nth_error arr j) as [b|] eqn:Eb; [|discriminate].
  injection E as E. exact (Hinj i j a b Ea Eb E).
Qed.

(** X17. The keys of the blocks of a table are pairwise different, also
    when several blocks belong to one lecture and whatever characters the
    lecture ids are made of. *)
Theorem block_keys_NoDup (schedules : list Schedule) :
  NoDup (block_keys schedules).
Proof.
  unfold block_keys. apply NoDup_mapi_index.
  intros i j a b _ _ E.
  change (id (lecture a) ++ "-" ++ JS.Z_toString (Z.of_nat i))%string
    with (id (lecture a) ++ String "-" (JS.Z_toString (Z.of_nat i)))%string
    in E.
  change (id (lecture b) ++ "-" ++ JS.Z_toString (Z.of_nat j))%string
    with (id (lecture b) ++ String "-" (JS.Z_toString (Z.of_nat j)))%string
    in E.
  apply cut_at_last_inj in E; try (apply Z_toString_no_dash; lia).
  exact (Z_toString_nat_inj _ _ (proj2 E)).
Qed.

(** X18. With a recording [removeSchedule], the delete button of a block
    files one request, for the lecture of the block in this table; the
    buttons of two blocks file the same request exactly when the two
    blocks belong to the same lecture. *)
Theorem delete_is_per_lecture (props : Props (list (string * string)))
    (i j : nat) (si sj : Schedule) :
  nth_error (schedules props) i = Some si ->
  nth_error (schedules props) j = Some sj ->
  exists pressi pressj,
    nth_error (delete_buttons _ remove_spy props) i = Some pressi /\
    nth_error (delete_buttons _ remove_spy props) j = Some pressj /\
    (forall calls,
        pressi calls = calls ++ [(tableId props, id (lecture si))]) /\
    (pressi [] = pressj [] <-> id (lecture si) = id (lecture sj)).
Proof.
  intros Hi Hj. unfold delete_buttons.
  rewrite !nth_error_map, Hi, Hj. do 2 eexists.
  split; [reflexivity|]. split; [reflexivity|]. split; [reflexivity|].
  unfold handleDeleteSchedule, remove_spy. simpl. split.
  - intros [= E]. exact E.
  - intros ->. reflexivity.
Qed.

Lemma delete_is_per_lecture_witness :
  exists pressi pressj,
    nth_error (delete_buttons _ remove_spy
                 (mkProps "tableA" 0%nat Sample.seven None)) 0
    = Some pressi /\
    nth_error (delete_buttons _ remove_spy
                 (mkProps "tableA" 0%nat Sample.seven None)) 2
    = Some pressj /\
    (forall calls, pressi calls = calls ++ [("tableA", "L0")]) /\
    (pressi [] = pressj [] <-> "L0" = "L0").
Proof.
  apply (delete_is_per_lecture (mkProps "tableA" 0%nat Sample.seven None)
           0 2 (Sample.schedule_of "월" [1; 2] "L0")
           (Sample.schedule_of "월" [1; 2] "L0")).
  - reflexivity.
  - reflexivity.
Defined.

(** ** More on the grid *)

Lemma concat_uniform_length {A : Type} (ls : list (list A)) (m : nat) :
  (forall l, In l ls -> List.length l = m) ->
  List.length (List.concat ls) = (List.length ls * m)%nat.
Proof.
  induction ls as [|a ls IH]; intros H; simpl; [reflexivity|].
  rewrite length_app, (H a (or_introl eq_refl)), IH; [reflexivity|].
  intros l Hl. apply H. now right.
Qed.

Lemma concat_uniform_nth {A : Type} (ls : list (list A)) (m : nat) :
  (forall l, In l ls -> List.length l = m) ->
  forall i j,
    (j < m)%nat ->
    nth_error (List.concat ls) (i * m + j) =
    match nth_error ls i with
    | Some l => nth_error l j
    | None => None
    end.
Proof.
  induction ls as [|a ls IH]; intros H i j Hj.
  - simpl. destruct (i * m + j)%nat; destruct i; reflexivity.
  - pose proof (H a (or_introl eq_refl)) as Ha. simpl List.concat.
    destruct i as [|i].
    + simpl. apply nth_error_app1. lia.
    + rewrite nth_error_app2 by (simpl; lia).
      replace (S i * m + j - List.length a)%nat with (i * m + j)%nat
        by (simpl; lia).
      apply IH; [|exact Hj]. intros l Hl. apply H. now right.
Qed.

Lemma fragment_length (DAY_LABELS : list string) (fill2 : Z -> string)
    (St : Type) (props : Props St) (분 : Z) (parseHnM : Z -> string) :
  forall l,
    In l (JS.mapi (time_fragment DAY_LABELS fill2 St props)
                  (TIMES 분 parseHnM)) ->
    List.length l = S (List.length DAY_LABELS).
Proof.
  intros l Hl. apply In_mapi in Hl. destruct Hl as [i [v [_ ->]]].
  unfold time_fragment. simpl. now rewrite length_map.
Qed.

Lemma grid_rows_nth (DAY_LABELS : list string) (분 : Z)
    (parseHnM : Z -> string) (St : Type) (props : Props St) (i : nat)
    (row : TimeRow St) :
  nth_error (grid_rows DAY_LABELS 분 parseHnM St props) i = Some row ->
  (i < 24)%nat /\
  cells row = map (grid_cell St props (Z.of_nat i)) DAY_LABELS.
Proof.
  unfold grid_rows. rewrite mapi_nth. intros H.
  destruct (nth_error (TIMES 분 parseHnM) i) as [label|] eqn:E;
    [|discriminate].
  injection H as <-. split; [|reflexivity].
  assert (Hi : (i < List.length (TIMES 분 parseHnM))%nat)
    by (apply nth_error_Some; rewrite E; discriminate).
  destruct (TIMES_parts 분 parseHnM) as [hd [tl [P [Hh Ht]]]].
  rewrite P, length_app, Hh, Ht in Hi. exact Hi.
Qed.

Lemma TIMES_nth (분 : Z) (parseHnM : Z -> string) (i : nat) :
  (i < 24)%nat -> exists label, nth_error (TIMES 분 parseHnM) i = Some label.
Proof.
  intros Hi.
  destruct (nth_error (TIMES 분 parseHnM) i) as [label|] eqn:E;
    [now exists label|].
  apply nth_error_None in E.
  destruct (TIMES_parts 분 parseHnM) as [hd [tl [P [Hh Ht]]]].
  rewrite P, length_app, Hh, Ht in E. lia.
Qed.

Lemma NoDup_map_on {A B : Type} (f : A -> B) (l : list A) :
  (forall x y, In x l -> In y l -> f x = f y -> x = y) ->
  NoDup l -> NoDup (map f l).
Proof.
  intros Hinj ND. induction ND as [|a l Ha ND IH]; simpl; constructor.
  - intros H. apply in_map_iff in H. destruct H as [y [E Hy]].
    apply Ha. rewrite (Hinj a y); [exact Hy | now left | now right | ].
    now symmetry.
  - apply IH. intros x y Hx Hy. apply Hinj; now right.
Qed.

(** X19. The grid has exactly the children its template has cells for,
    25 rows of one label and one cell per day, and the click target of
    time row [i] and day column [j] is child number
    [(i + 1) * (days + 1) + (j + 1)] of the grid: filled row by row, it
    lands in row track [i + 1] and column track [j + 1]. *)
Theorem target_position (DAY_LABELS : list string) (분 : Z)
    (parseHnM fill2 : Z -> string) (St : Type) (props : Props St)
    (i j : nat) (d : string) :
  (i < 24)%nat ->
  nth_error DAY_LABELS j = Some d ->
  let columns := S (List.length DAY_LABELS) in
  let children := grid_children DAY_LABELS 분 parseHnM fill2 St props in
  let k := (S i * columns + S j)%nat in
  List.length children = (25 * columns)%nat /\
  nth_error children k = Some (Target (grid_cell St props (Z.of_nat i) d)) /\
  (k / columns = S i)%nat /\
  (k mod columns = S j)%nat.
Proof.
  intros Hi Hd columns children k.
  assert (Hj : (j < List.length DAY_LABELS)%nat)
    by (apply nth_error_Some; rewrite Hd; discriminate).
  pose proof (fragment_length DAY_LABELS fill2 St props 분 parseHnM) as Hfrag.
  assert (Hsplit : children =
                   (Corner :: map DayHeader DAY_LABELS)
                   ++ List.concat
                        (JS.mapi (time_fragment DAY_LABELS fill2 St props)
                                 (TIMES 분 parseHnM))) by reflexivity.
  assert (Hhead : List.length (@Corner St :: map DayHeader DAY_LABELS)
                  = columns) by (simpl; now rewrite length_map).
  split; [|split; [|split]].
  - rewrite Hsplit, length_app, Hhead.
    rewrite (concat_uniform_length _ _ Hfrag), mapi_length.
    destruct (TIMES_parts 분 parseHnM) as [hd [tl [P [Hh Ht]]]].
    rewrite P, length_app, Hh, Ht. fold columns. lia.
  - rewrite Hsplit, nth_error_app2 by (rewrite Hhead; unfold k; lia).
    rewrite Hhead.
    replace (k - columns)%nat with (i * columns + S j)%nat
      by (unfold k; lia).
    rewrite (concat_uniform_nth _ _ Hfrag) by (unfold columns; lia).
    rewrite mapi_nth. destruct (TIMES_nth 분 parseHnM i Hi) as [label ->].
    cbn [option_map]. unfold time_fragment. cbn [nth_error].
    rewrite nth_error_map, Hd. reflexivity.
  - unfold k. rewrite Nat.add_comm, Nat.div_add by (unfold columns; lia).
    rewrite Nat.div_small by (unfold columns; lia). reflexivity.
  - unfold k. rewrite Nat.add_comm, Nat.Div0.mod_add.
    apply Nat.mod_small. unfold columns. lia.
Qed.

Lemma target_position_witness :
  let children :=
    grid_children Sample.DAY_LABELS Sample.분 Sample.parseHnM Sample.fill2
      (list TimeInfo.t) (Sample.props Sample.seven) in
  List.length children = (25 * 6)%nat /\
  nth_error children (6 * 6 + 1) =
  Some (Target (grid_cell (list TimeInfo.t) (Sample.props Sample.seven)
                  5 "월")) /\
  ((6 * 6 + 1) / 6 = 6)%nat /\
  ((6 * 6 + 1) mod 6 = 1)%nat.
Proof.
  apply (target_position Sample.DAY_LABELS Sample.분 Sample.parseHnM
           Sample.fill2 (list TimeInfo.t) (Sample.props Sample.seven)
           5 0 "월").
  - lia.
  - reflexivity.
Defined.

(** X20. With a recording callback wired, every click target of the
    rendered table reports one call, and what it reports is a day of the
    day set and a slot from 1 to 24. *)
Theorem targets_report_grid_slots (DAY_LABELS : list string)
    (CellSize : CellSize.t) (분 : Z) (parseHnM : Z -> string)
    (hook : option (MemoCell (string -> JS.value)))
    (props : Props (list TimeInfo.t)) (dndContext : DndContext)
    (row : TimeRow (list TimeInfo.t)) (item : GridItem (list TimeInfo.t)) :
  onScheduleTimeClick props = Some spy ->
  In row
     (rendered_rows
        (fst (ScheduleTable DAY_LABELS CellSize 분 parseHnM
                (list TimeInfo.t) hook props dndContext))) ->
  In item (cells row) ->
  exists d t,
    In d DAY_LABELS /\
    1 <= t <= 24 /\
    forall calls, onClick item calls = calls ++ [TimeInfo.mk d t].
Proof.
  intros Hwired Hrow Hitem.
  unfold ScheduleTable in Hrow. cbn [fst rendered_rows] in Hrow.
  apply In_nth_error in Hrow. destruct Hrow as [i Hi].
  destruct (grid_rows_nth _ _ _ _ _ _ _ Hi) as [Hlt Hcells].
  rewrite Hcells in Hitem. apply in_map_iff in Hitem.
  destruct Hitem as [d [<- Hd]].
  exists d, (Z.of_nat i + 1). split; [exact Hd|]. split; [lia|].
  intros calls. unfold grid_cell. cbn [onClick].
  rewrite Hwired. reflexivity.
Qed.

Lemma targets_report_grid_slots_witness :
  exists d t,
    In d Sample.DAY_LABELS /\
    1 <= t <= 24 /\
    forall calls,
      onClick (grid_cell (list TimeInfo.t) (Sample.props Sample.seven) 23 "금")
              calls
      = calls ++ [TimeInfo.mk d t].
Proof.
  apply (targets_report_grid_slots Sample.DAY_LABELS Sample.CellSize
           Sample.분 Sample.parseHnM None (Sample.props Sample.seven)
           Sample.idle
           (mkTimeRow "시간-24"
              (map (grid_cell (list TimeInfo.t) (Sample.props Sample.seven)
                      23)
                   Sample.DAY_LABELS))).
  - reflexivity.
  - do 23 right. left. reflexivity.
  - simpl. tauto.
Defined.



Lemma map_mapi {A B C : Type} (f : B -> C) (g : A -> Z -> B) (arr : list A) :
  map f (JS.mapi g arr) = JS.mapi (fun v k => f (g v k)) arr.
Proof.
  unfold JS.mapi. generalize 0.
  induction arr as [|v arr IH]; intros k; simpl; [reflexivity|].
  now rewrite IH.
Qed.

Lemma click_inv (DAY_LABELS : list string) (CellSize : CellSize.t)
    (분 : Z) (parseHnM : Z -> string) (St : Type)
    (hook : option (MemoCell (string -> JS.value)))
    (props : Props St) (dndContext : DndContext) (i j : nat)
    (handler : St -> St) :
  click St
    (fst (ScheduleTable DAY_LABELS CellSize 분 parseHnM St hook props
            dndContext))
    i j
  = Some handler ->
  exists d,
    (i < 24)%nat /\
    nth_error DAY_LABELS j = Some d /\
    handler = optional_call St (onScheduleTimeClick props)
                (TimeInfo.mk d (Z.of_nat i + 1)).
Proof.
  unfold click, ScheduleTable. cbn [fst rendered_rows]. intros H.
  destruct (nth_error (grid_rows DAY_LABELS 분 parseHnM St props) i)
    as [row|] eqn:Erow; [|discriminate].
  destruct (grid_rows_nth _ _ _ _ _ _ _ Erow) as [Hi Hcells].
  rewrite Hcells, nth_error_map in H.
  destruct (nth_error DAY_LABELS j) as [d|]; [|discriminate].
  injection H as <-. exists d. repeat split. exact Hi.
Qed.

(** X22. When the day labels are pairwise different and a recording
    callback is wired, two different click targets of the rendered table
    never report the same day and slot. *)
Theorem targets_report_distinct (DAY_LABELS : list string)
    (CellSize : CellSize.t) (분 : Z) (parseHnM : Z -> string)
    (hook : option (MemoCell (string -> JS.value)))
    (props : Props (list TimeInfo.t)) (dndContext : DndContext)
    (i j i' j' : nat) (handler handler' : list TimeInfo.t -> list TimeInfo.t) :
  NoDup DAY_LABELS ->
  onScheduleTimeClick props = Some spy ->
  i <> i' \/ j <> j' ->
  let tree :=
    fst (ScheduleTable DAY_LABELS CellSize 분 parseHnM (list TimeInfo.t)
           hook props dndContext) in
  click (list TimeInfo.t) tree i j = Some handler ->
  click (list TimeInfo.t) tree i' j' = Some handler' ->
  handler [] <> handler' [].
Proof.
  intros ND Hwired Hne tree H H' E.
  apply click_inv in H. destruct H as [d [Hi [Hd ->]]].
  apply click_inv in H'. destruct H' as [d' [Hi' [Hd' ->]]].
  rewrite Hwired in E. cbn in E. injection E as Ed Et.
  assert (i = i') by lia. subst d'.
  assert (j = j').
  { apply (proj1 (NoDup_nth_error DAY_LABELS) ND).
    - apply nth_error_Some. rewrite Hd. discriminate.
    - now rewrite Hd, Hd'. }
  tauto.
Qed.

Lemma Sample_days_NoDup : NoDup Sample.DAY_LABELS.
Proof.
  unfold Sample.DAY_LABELS.
  repeat (constructor;
          [simpl; intros H;
           repeat (destruct H as [H|H]; [discriminate H|]); exact H|]).
  constructor.
Qed.

Lemma targets_report_distinct_witness :
  optional_call (list TimeInfo.t) (Some spy) (TimeInfo.mk "월" 6) []
  <> optional_call (list TimeInfo.t) (Some spy) (TimeInfo.mk "화" 6) [].
Proof.
  apply (targets_report_distinct Sample.DAY_LABELS Sample.CellSize
           Sample.분 Sample.parseHnM None (Sample.props Sample.seven)
           Sample.idle 5 0 5 1).
  - exact Sample_days_NoDup.
  - reflexivity.
  - right. lia.
  - reflexivity.
  - reflexivity.
Defined.

(** X23. The keys of the time rows are pairwise different; and when the
    day labels are pairwise different, so are the keys of the click
    targets within each row. *)
Theorem grid_keys_distinct (DAY_LABELS : list string) (분 : Z)
    (parseHnM : Z -> string) (St : Type) (props : Props St) :
  NoDup (map row_key (grid_rows DAY_LABELS 분 parseHnM St props)) /\
  (NoDup DAY_LABELS ->
   forall row,
     In row (grid_rows DAY_LABELS 분 parseHnM St props) ->
     NoDup (map key (cells row))).
Proof.
  split.
  - unfold grid_rows. rewrite map_mapi. apply NoDup_mapi_index.
    intros i j a b _ _ E. cbn [row_key] in E.
    apply append_same_prefix, Z_toString_inj in E. lia.
  - intros ND row Hrow. apply In_nth_error in Hrow.
    destruct Hrow as [i Hi].
    destruct (grid_rows_nth _ _ _ _ _ _ _ Hi) as [_ ->].
    rewrite map_map. apply NoDup_map_on; [|exact ND].
    intros x y _ _ E. unfold grid_cell in E. cbn [key] in E.
    change (x ++ "-" ++ JS.Z_toString (Z.of_nat i + 2))%string
      with (x ++ String "-" (JS.Z_toString (Z.of_nat i + 2)))%string in E.
    change (y ++ "-" ++ JS.Z_toString (Z.of_nat i + 2))%string
      with (y ++ String "-" (JS.Z_toString (Z.of_nat i + 2)))%string in E.
    apply cut_at_last_inj in E; try (apply Z_toString_no_dash; lia).
    exact (proj1 E).
Qed.

Lemma grid_keys_distinct_witness :
  NoDup (map key
           (map (grid_cell nat (mkProps "tableA" 0%nat Sample.seven None) 4)
                Sample.DAY_LABELS)).
Proof.
  refine (proj2 (grid_keys_distinct Sample.DAY_LABELS Sample.분
                   Sample.parseHnM nat
                   (mkProps "tableA" 0%nat Sample.seven None))
                Sample_days_NoDup
                (mkTimeRow "시간-5"
                   (map (grid_cell nat
                           (mkProps "tableA" 0%nat Sample.seven None) 4)
                        Sample.DAY_LABELS))
                _).
  do 4 right. left. reflexivity.
Defined.
